(** * Verification of gen_resistors_csv.py

    A shallow embedding of the Yageo resistor catalogue generator and the
    properties of its formatting functions, its part-number builder, the
    catalogue expansion and the CSV serialisation.

    Python's [float] is IEEE 754 binary64.  It is modelled by the
    specification floats of the standard library ([spec_float], precision 53,
    maximal exponent 1024), whose operations are the correctly rounded ones.
    Strings are [string]; exceptions are values of an error monad; the file
    system is a trace of the calls made on it. *)

From Stdlib Require Import ZArith List String Ascii Bool Lia.
From Stdlib Require Import Floats.SpecFloat.
From Stdlib Require Import DecimalString.
From Stdlib Require DecimalN.
Import ListNotations.

Local Open Scope string_scope.
Local Open Scope Z_scope.

(* ================================================================== *)
(** * Binary64 numbers *)
(* ================================================================== *)

Module Float64.

Definition prec : Z := 53.
Definition emax : Z := 1024.

Definition float : Type := spec_float.

(** The floats Python can hold: canonical mantissa, bounded exponent. *)
Definition valid (x : float) : bool := valid_binary prec emax x.

(** Conversion of a Python [int]; exact below 2^53, which covers every
    integer the program mixes with floats.  For an integer beyond the range
    of binary64 the interpreter raises [OverflowError] where this function
    gives an infinity: the model is the code's on the integers that
    convert to a finite float. *)
Definition of_int (n : Z) : float := binary_normalize prec emax n 0 false.

Definition mul (x y : float) : float := SFmul prec emax x y.
Definition div (x y : float) : float := SFdiv prec emax x y.

Definition ltb (x y : float) : bool := SFltb x y.
Definition leb (x y : float) : bool := SFleb x y.
Definition eqb (x y : float) : bool := SFeqb x y.
Definition geb (x y : float) : bool := SFleb y x.

(** A decimal literal [digits / 10^decimals], e.g. [lit 105 2] for [1.05]:
    the double nearest to the decimal number (ties to even), which is what
    the Python parser yields.  Both operands of the division are exactly
    representable, so the correctly rounded quotient is that double. *)
Definition lit (digits : Z) (decimals : nat) : float :=
  div (of_int digits) (of_int (10 ^ Z.of_nat decimals)).

Definition is_nan (x : float) : bool :=
  match x with S754_nan => true | _ => false end.

(** Zero or a finite non-zero number: not an infinity, not a NaN. *)
Definition is_finite (x : float) : bool :=
  match x with S754_zero _ | S754_finite _ _ _ => true | _ => false end.

End Float64.

Import Float64.

(* ================================================================== *)
(** * Python string methods and number formatting *)
(* ================================================================== *)

Module Py.

Fixpoint mem_ascii (c : ascii) (chars : string) : bool :=
  match chars with
  | EmptyString => false
  | String d chars' => Ascii.eqb c d || mem_ascii c chars'
  end.

(** [s.rstrip(chars)]: drop the longest suffix made of characters of
    [chars]. *)
Fixpoint rstrip (chars : string) (s : string) : string :=
  match s with
  | EmptyString => EmptyString
  | String c s' =>
      match rstrip chars s' with
      | EmptyString => if mem_ascii c chars then EmptyString
                       else String c EmptyString
      | t => String c t
      end
  end.

(** [s.replace(old, new)] for a one-character [old], the only way the
    program calls it. *)
Fixpoint replace (old : ascii) (new : string) (s : string) : string :=
  match s with
  | EmptyString => EmptyString
  | String c s' =>
      if Ascii.eqb c old then new ++ replace old new s'
      else String c (replace old new s')
  end.

(** [sep.join(parts)]. *)
Fixpoint join (sep : string) (parts : list string) : string :=
  match parts with
  | [] => EmptyString
  | [p] => p
  | p :: rest => p ++ sep ++ join sep rest
  end.

(** [x in xs] for a list of strings. *)
Fixpoint str_in (x : string) (xs : list string) : bool :=
  match xs with
  | [] => false
  | y :: ys => String.eqb x y || str_in x ys
  end.

(** Nearest integer to [n / d], ties to the even one ([0 <= n], [0 < d]). *)
Definition round_half_even (n d : Z) : Z :=
  let q := n / d in
  let r := n mod d in
  match 2 * r ?= d with
  | Lt => q
  | Gt => q + 1
  | Eq => if Z.even q then q else q + 1
  end.

(** The integer nearest to [m * 2^e * 10^digits]: float formatting is
    correctly rounded on the exact binary value. *)
Definition scaled (digits : nat) (m : positive) (e : Z) : Z :=
  match e with
  | Zneg k => round_half_even (Zpos m * 10 ^ Z.of_nat digits) (2 ^ Zpos k)
  | _ => Zpos m * 2 ^ e * 10 ^ Z.of_nat digits
  end.

Definition decimal (n : Z) : string :=
  NilZero.string_of_uint (N.to_uint (Z.to_N n)).

Fixpoint zeros (k : nat) : string :=
  match k with
  | O => EmptyString
  | S k' => String "0" (zeros k')
  end.

(** The digits of [n], with zeros in front up to [digits + 1] characters,
    and a point before the last [digits] ones. *)
Definition fixed_point (digits : nat) (n : Z) : string :=
  let d := decimal n in
  let d := zeros (S digits - String.length d) ++ d in
  let k := (String.length d - digits)%nat in
  substring 0 k d ++ "." ++ substring k digits d.

Definition sign_str (s : bool) : string := if s then "-" else EmptyString.

(** [f"{x:.<digits>f}"] for a float [x]. *)
Definition format_f (digits : nat) (x : float) : string :=
  match x with
  | S754_nan => "nan"
  | S754_infinity s => sign_str s ++ "inf"
  | S754_zero s => sign_str s ++ fixed_point digits 0
  | S754_finite s m e => sign_str s ++ fixed_point digits (scaled digits m e)
  end.

End Py.

Import Py.

(* ================================================================== *)
(** * Exceptions *)
(* ================================================================== *)

Inductive exn : Type :=
| ValueError (msg : string)
| IndexError (msg : string).

Inductive result (A : Type) : Type :=
| Ok (a : A)
| Raise (e : exn).

Arguments Ok {A} a.
Arguments Raise {A} e.

Definition bind {A B : Type} (c : result A) (k : A -> result B) : result B :=
  match c with
  | Ok a => k a
  | Raise e => Raise e
  end.

Notation "x <- c ;; k" := (bind c (fun x => k))
  (at level 61, c at next level, right associativity).
Notation "' pat <- c ;; k" := (bind c (fun x => match x with pat => k end))
  (at level 61, pat pattern, c at next level, right associativity).

(** A [for] loop whose body updates the loop state and may raise. *)
Fixpoint for_each {A S : Type} (xs : list A) (body : S -> A -> result S)
    (s : S) : result S :=
  match xs with
  | [] => Ok s
  | x :: xs' => s' <- body s x ;; for_each xs' body s'
  end.

(** A list display [[f(x1), f(x2), ...]]: the items are evaluated from left
    to right. *)
Fixpoint map_result {A B : Type} (f : A -> result B) (xs : list A)
    : result (list B) :=
  match xs with
  | [] => Ok []
  | x :: xs' => y <- f x ;; ys <- map_result f xs' ;; Ok (y :: ys)
  end.

(* ================================================================== *)
(** * The preferred-value series *)
(* ================================================================== *)

Definition E24 : list float :=
  map (fun d => lit d 1)
    [10; 11; 12; 13; 15; 16; 18; 20; 22; 24; 27; 30;
     33; 36; 39; 43; 47; 51; 56; 62; 68; 75; 82; 91].

Definition E48 : list float :=
  map (fun d => lit d 2)
    [100; 105; 110; 115; 121; 127; 133; 140; 147; 154;
     162; 169; 178; 187; 196; 205; 215; 226; 237; 249;
     261; 274; 287; 301; 316; 332; 348; 365; 383; 402;
     422; 442; 464; 487; 511; 536; 562; 590; 619; 649;
     681; 715; 750; 787; 825; 866; 909; 953].

(* ================================================================== *)
(** * Records *)
(* ================================================================== *)

Record DatabaseRow : Type := {
  part_id : string;
  value : string;
  component : string;
  manufacturer : string;
  manufacturer_part_number : string;
  rating : string;
  package : string;
  lcsc : string;
  or_equivalent : string;
  symbol : string;
  footprint : string;
  datasheet : string
}.

(** [vars(self).values()] and [vars(self).keys()]: the instance dictionary
    holds the fields in the order the dataclass declares them. *)
Definition values (row : DatabaseRow) : list string :=
  [part_id row; value row; component row; manufacturer row;
   manufacturer_part_number row; rating row; package row; lcsc row;
   or_equivalent row; symbol row; footprint row; datasheet row].

Definition headers (row : DatabaseRow) : list string :=
  ["part_id"; "value"; "component"; "manufacturer";
   "manufacturer_part_number"; "rating"; "package"; "lcsc";
   "or_equivalent"; "symbol"; "footprint"; "datasheet"].

(* ================================================================== *)
(** * Formatting functions *)
(* ================================================================== *)

Definition resistor_tolerance_str (tolerance : float) : string :=
  rstrip "." (rstrip "0" (format_f 1 tolerance)) ++ "%".

Definition resistor_value_str (resistance : float) : string :=
  let magnitude := EmptyString in
  let '(magnitude, resistance) :=
    if geb resistance (of_int 1000000) then
      ("M", div resistance (of_int 1000000))
    else if geb resistance (of_int 1000) then
      ("k", div resistance (of_int 1000))
    else (magnitude, resistance) in
  rstrip "." (rstrip "0" (format_f 2 resistance)) ++ magnitude.

Definition resistor_part_id_str (resistance : float) (package : string)
    (tolerance : float) : string :=
  "R-" ++ resistor_value_str resistance ++ "-" ++ package ++ "-"
       ++ resistor_tolerance_str tolerance.

Definition resistor_footprint_str (package : string) : result string :=
  if String.eqb package "0402" then Ok "Resistor_SMD:R_0402_1005Metric"
  else if String.eqb package "0603" then Ok "Resistor_SMD:R_0603_1608Metric"
  else Raise (ValueError "Invalid package type").

Definition resistor_description_str (resistance : float) (package : string)
    (tolerance : float) : string :=
  "Resistor " ++ resistor_value_str resistance ++ " " ++ package ++ " "
              ++ resistor_tolerance_str tolerance ++ " 0.1W".

Definition yageo_resistor_mpn (resistance : float) (package : string)
    (tolerance : float) : result string :=
  let PACKAGING := "R" in
  let REEL := "07" in
  '(magnitude, resistance) <-
    (if ltb resistance (of_int 1000) then
       Ok ("R"%char, resistance)
     else if ltb resistance (of_int 1000000) then
       Ok ("K"%char, div resistance (of_int 1000))
     else if leb resistance (of_int 10000000) then
       Ok ("M"%char, div resistance (of_int 1000000))
     else
       Raise (ValueError
                "Not a valid resistance value (1 < {} < 10,000,000)")) ;;
  let resistance_str :=
    replace "." (String magnitude EmptyString)
            (rstrip "0" (format_f 2 resistance)) in
  _ <- (if negb (str_in package
                   ["0201"; "0402"; "0603"; "0805"; "1206"; "1210"])
        then Raise (ValueError "Invalid package") else Ok tt) ;;
  tolerance_str <-
    (if eqb tolerance (lit 10 1) then Ok "F"
     else if eqb tolerance (lit 50 1) then Ok "J"
     else Raise (ValueError "Invalid tolerance, must be 1.0% or 5.0%")) ;;
  Ok ("RC" ++ package ++ tolerance_str ++ PACKAGING ++ "-" ++ REEL
           ++ resistance_str ++ "L").

Record YageoResistor : Type := {
  resistance : float;
  resistor_package : string;
  tolerance : float;
  database_row : DatabaseRow
}.

(** The dataclass constructor followed by [__post_init__].  The keyword
    arguments of [DatabaseRow(...)] are evaluated in the order they are
    written, so the footprint is resolved before the part number is built. *)
Definition YageoResistor_init (resistance : float) (package : string)
    (tolerance : float) : result YageoResistor :=
  let DATASHEET := "https://www.yageo.com/upload/media/product/products/datasheet/rchip/PYu-RC_Group_51_RoHS_L_12.pdf" in
  let MANUFACTURER := "Yageo" in
  let SYMBOL := "Device:R_Small" in
  let POWER := "0.1W" in
  let part_id := resistor_part_id_str resistance package tolerance in
  footprint <- resistor_footprint_str package ;;
  let value := resistor_value_str resistance in
  let component := resistor_description_str resistance package tolerance in
  manufacturer_part_number <- yageo_resistor_mpn resistance package tolerance ;;
  let rating := resistor_tolerance_str tolerance ++ ", " ++ POWER in
  Ok {| resistance := resistance;
        resistor_package := package;
        tolerance := tolerance;
        database_row :=
          {| part_id := part_id;
             value := value;
             component := component;
             manufacturer := MANUFACTURER;
             manufacturer_part_number := manufacturer_part_number;
             rating := rating;
             package := package;
             lcsc := EmptyString;
             or_equivalent := "y";
             symbol := SYMBOL;
             footprint := footprint;
             datasheet := DATASHEET |} |}.

(* ================================================================== *)
(** * The file system and the CSV writer *)
(* ================================================================== *)

(** What the program does to the file system, call by call. *)
Inductive event : Type :=
| Open (path : string)
| Write (path : string) (data : string)
| Close (path : string).

Definition world : Type := list event.

(** Computations that may raise and that act on the file system. *)
Definition io (A : Type) : Type := world -> result A * world.

Definition io_ret {A : Type} (a : A) : io A := fun w => (Ok a, w).

Definition io_bind {A B : Type} (c : io A) (k : A -> io B) : io B :=
  fun w =>
    match c w with
    | (Ok a, w') => k a w'
    | (Raise e, w') => (Raise e, w')
    end.

Definition lift {A : Type} (c : result A) : io A := fun w => (c, w).

Notation "x <~ c ;; k" := (io_bind c (fun x => k))
  (at level 61, c at next level, right associativity).

Fixpoint io_for_each {A : Type} (xs : list A) (body : A -> io unit)
    : io unit :=
  match xs with
  | [] => io_ret tt
  | x :: xs' => _ <~ body x ;; io_for_each xs' body
  end.

Definition write (f : string) (data : string) : io unit :=
  fun w => (Ok tt, (w ++ [Write f data])%list).

(** [with open(path, "w") as f: body]: the file is closed when the block is
    left, whether or not it raised.  Opening and writing are taken to
    succeed: a failure of the operating system ([OSError]) is not
    modelled. *)
Definition with_open {A : Type} (path : string) (body : string -> io A)
    : io A :=
  fun w =>
    let '(r, w') := body path (w ++ [Open path])%list in
    (r, (w' ++ [Close path])%list).

Definition dquote : ascii := ascii_of_nat 34.
Definition crlf : string :=
  String (ascii_of_nat 13) (String (ascii_of_nat 10) EmptyString).

(** A field under [csv.QUOTE_ALL] in the default dialect: enclosed in double
    quotes, a double quote inside it written twice. *)
Definition quote_field (field : string) : string :=
  String dquote
    (replace dquote (String dquote (String dquote EmptyString)) field
       ++ String dquote EmptyString).

(** [writer.writerow(fields)]: one call of [write] with the whole line,
    ended by the writer's line terminator, carriage return and line feed.
    The line is the text handed to the file object; what a text-mode file
    makes of the line feed is the platform's affair (nothing on POSIX). *)
Definition csv_line (fields : list string) : string :=
  join "," (map quote_field fields) ++ crlf.

Definition writerow (f : string) (fields : list string) : io unit :=
  write f (csv_line fields).

(** [xs[0]]. *)
Definition first {A : Type} (xs : list A) : result A :=
  match xs with
  | x :: _ => Ok x
  | [] => Raise (IndexError "list index out of range")
  end.

(* ================================================================== *)
(** * The catalogue generator *)
(* ================================================================== *)

Definition resistor_list (package : string) (tolerance : float)
    (series : list float) (decades : list Z) : result (list YageoResistor) :=
  let resistors := [] in
  for_each decades (fun resistors decade =>
    for_each series (fun resistors base =>
      let resistance := mul base (of_int decade) in
      y <- YageoResistor_init resistance package tolerance ;;
      Ok (resistors ++ [y])%list) resistors) resistors.

(** The body of [gen_resistor_csv], with the tables it iterates over and the
    arguments of the four boundary resistors as parameters. *)
Definition gen_resistor_csv_from (packages : list string)
    (series_tolerances : list (list float * float)) (decades : list Z)
    (boundary : list (float * string * float)) : io unit :=
  resistors <~ lift (for_each packages (fun resistors package =>
    for_each series_tolerances (fun resistors '(series, tolerance) =>
      more <- resistor_list package tolerance series decades ;;
      Ok (resistors ++ more)%list) resistors) []) ;;
  more <~ lift (map_result
                  (fun '(resistance, package, tolerance) =>
                     YageoResistor_init resistance package tolerance)
                  boundary) ;;
  let resistors := (resistors ++ more)%list in
  with_open "yageo_resistors.csv" (fun f =>
    r0 <~ lift (first resistors) ;;
    _ <~ writerow f (headers (database_row r0)) ;;
    io_for_each resistors (fun resistor =>
      writerow f (values (database_row resistor)))).

Definition packages : list string := ["0402"; "0603"].

Definition series_tolerances : list (list float * float) :=
  [(E48, lit 10 1); (E24, lit 50 1)].

Definition decades : list Z :=
  [1; 10; 100; 1000; 10000; 100000; 1000000].

Definition boundary : list (float * string * float) :=
  [(lit 0 1, "0402", lit 50 1);
   (lit 0 1, "0603", lit 50 1);
   (of_int 10000000, "0402", lit 10 1);
   (of_int 10000000, "0603", lit 10 1)].

Definition gen_resistor_csv : io unit :=
  gen_resistor_csv_from packages series_tolerances decades boundary.

(* ================================================================== *)
(** * Vocabulary of the specification *)
(* ================================================================== *)

(** The three failures the specification names.  The program raises a
    [ValueError] for each and tells them apart by the message only. *)
Definition invalid_resistance : exn :=
  ValueError "Not a valid resistance value (1 < {} < 10,000,000)".
Definition invalid_package : exn := ValueError "Invalid package".
Definition invalid_tolerance : exn :=
  ValueError "Invalid tolerance, must be 1.0% or 5.0%".
(** The footprint resolver words its invalid-package failure differently. *)
Definition invalid_footprint_package : exn :=
  ValueError "Invalid package type".

Definition is_invalid_input (e : exn) : Prop :=
  e = invalid_resistance \/ e = invalid_package \/
  e = invalid_footprint_package \/ e = invalid_tolerance.

(** The six package codes of the part-number builder. *)
Definition mpn_packages : list string :=
  ["0201"; "0402"; "0603"; "0805"; "1206"; "1210"].

(** Tolerance code, magnitude letter and scaled value as the specification
    describes them for an accepted resistance. *)
Definition tolerance_code (tolerance : float) : string :=
  if eqb tolerance (lit 10 1) then "F" else "J".

Definition magnitude_letter (r : float) : ascii :=
  if ltb r (of_int 1000) then "R"%char
  else if ltb r (of_int 1000000) then "K"%char
  else "M"%char.

Definition scaled_value (r : float) : float :=
  if ltb r (of_int 1000) then r
  else if ltb r (of_int 1000000) then div r (of_int 1000)
  else div r (of_int 1000000).

Definition scaled_mantissa (r : float) : string :=
  replace "." (String (magnitude_letter r) EmptyString)
          (rstrip "0" (format_f 2 (scaled_value r))).

(** A resistor specification: resistance, package, tolerance. *)
Definition specification : Type := (float * string * float)%type.

Definition construct (s : specification) : result YageoResistor :=
  let '(resistance, package, tolerance) := s in
  YageoResistor_init resistance package tolerance.

Definition spec_of (y : YageoResistor) : specification :=
  (resistance y, resistor_package y, tolerance y).

Definition identifier (s : specification) : string :=
  let '(resistance, package, tolerance) := s in
  resistor_part_id_str resistance package tolerance.

(** Generation order: packages outermost, then the (series, tolerance)
    pairs, then the decades, then the base values of the series; the boundary
    specifications come last. *)
Definition expansion (packages : list string)
    (series_tolerances : list (list float * float)) (decades : list Z)
    : list specification :=
  flat_map (fun package =>
    flat_map (fun st : list float * float =>
      flat_map (fun decade =>
        map (fun base => (mul base (of_int decade), package, snd st))
            (fst st))
        decades)
      series_tolerances)
    packages.

Definition generation_order (packages : list string)
    (series_tolerances : list (list float * float)) (decades : list Z)
    (boundary : list specification) : list specification :=
  (expansion packages series_tolerances decades ++ boundary)%list.

(** The records of the catalogue: every specification constructed, in
    generation order, up to the first failure. *)
Definition records_of (packages : list string)
    (series_tolerances : list (list float * float)) (decades : list Z)
    (boundary : list specification) : result (list YageoResistor) :=
  map_result construct
    (generation_order packages series_tolerances decades boundary).

Definition field_names : list string :=
  ["part_id"; "value"; "component"; "manufacturer";
   "manufacturer_part_number"; "rating"; "package"; "lcsc";
   "or_equivalent"; "symbol"; "footprint"; "datasheet"].

(** The rows of the output for a list of records, as lists of fields. *)
Definition table (records : list YageoResistor) : list (list string) :=
  field_names :: map (fun y => values (database_row y)) records.

(** What a complete run adds to the trace of the file system. *)
Definition output (path : string) (lines : list string) : list event :=
  (Open path :: map (Write path) lines ++ [Close path])%list.

Definition output_path : string := "yageo_resistors.csv".

(** A field between double quotes, nothing added inside. *)
Definition in_quotes (field : string) : string :=
  String dquote (field ++ String dquote EmptyString).

Fixpoint str_forall (P : ascii -> bool) (s : string) : bool :=
  match s with
  | EmptyString => true
  | String c s' => P c && str_forall P s'
  end.

Definition is_digit (c : ascii) : bool :=
  let n := nat_of_ascii c in (Nat.leb 48 n && Nat.leb n 57)%bool.

Definition digits_only (s : string) : bool := str_forall is_digit s.

Definition no_dquote (s : string) : bool :=
  str_forall (fun c => negb (Ascii.eqb c dquote)) s.

(** Decidable absence of repetitions in a list of strings. *)
Fixpoint distinct (xs : list string) : bool :=
  match xs with
  | [] => true
  | x :: xs' => negb (str_in x xs') && distinct xs'
  end.

(** The value of a computation that did not raise. *)
Definition ok_or {A : Type} (default : A) (c : result A) : A :=
  match c with
  | Ok a => a
  | Raise _ => default
  end.

(** The records of the run of [gen_resistor_csv]. *)
Definition catalogue : list YageoResistor :=
  ok_or [] (records_of packages series_tolerances decades boundary).

(** The characters other than [c]. *)
Definition differs (c : ascii) : ascii -> bool :=
  fun d => negb (Ascii.eqb d c).

(** The sign of a float that is not a NaN. *)
Definition sign_of (x : float) : bool :=
  match x with
  | S754_zero s | S754_infinity s | S754_finite s _ _ => s
  | S754_nan => false
  end.

Definition is_ok {A : Type} (c : result A) : bool :=
  match c with
  | Ok _ => true
  | Raise _ => false
  end.

(** The metadata every record carries, given the tolerance it was built
    for. *)
Definition metadata_ok (tolerance : float) (row : DatabaseRow) : Prop :=
  manufacturer row = "Yageo" /\
  symbol row = "Device:R_Small" /\
  datasheet row = "https://www.yageo.com/upload/media/product/products/datasheet/rchip/PYu-RC_Group_51_RoHS_L_12.pdf" /\
  lcsc row = EmptyString /\
  or_equivalent row = "y" /\
  rating row = resistor_tolerance_str tolerance ++ ", 0.1W".

(** What the value and tolerance formatters leave of the fraction digits
    [fp] of a formatted number: nothing when they are all zeros, else the
    point and the digits up to the last one that is not a zero. *)
Definition fraction_part (fp : string) : string :=
  match rstrip "0" fp with
  | EmptyString => EmptyString
  | f => String "." f
  end.

(** The suffix of the value formatter. *)
Definition value_suffix (r : float) : string :=
  if geb r (of_int 1000000) then "M"
  else if geb r (of_int 1000) then "k"
  else EmptyString.

(** The digits of the series entries: [E24] in tenths, [E48] in
    hundredths. *)
Definition E24_digits : list Z :=
  [10; 11; 12; 13; 15; 16; 18; 20; 22; 24; 27; 30;
   33; 36; 39; 43; 47; 51; 56; 62; 68; 75; 82; 91].

Definition E48_digits : list Z :=
  [100; 105; 110; 115; 121; 127; 133; 140; 147; 154;
   162; 169; 178; 187; 196; 205; 215; 226; 237; 249;
   261; 274; 287; 301; 316; 332; 348; 365; 383; 402;
   422; 442; 464; 487; 511; 536; 562; 590; 619; 649;
   681; 715; 750; 787; 825; 866; 909; 953].

(** The value string and the part-number mantissa of [base * decade],
    computed in binary64, are those of the decimal number
    [digits * decade / 10^decimals] written as a literal, for a base given
    by its digits; both numbers are accepted resistances. *)
Definition prints_exactly (decimals : nat) (decade digits : Z) : bool :=
  let product := mul (lit digits decimals) (of_int decade) in
  let exact := lit (digits * decade) decimals in
  String.eqb (resistor_value_str product) (resistor_value_str exact)
  && String.eqb (scaled_mantissa product) (scaled_mantissa exact)
  && leb product (of_int 10000000) && leb exact (of_int 10000000).

(** The number a string of decimal digits denotes, if it is one. *)
Definition number_of_digits (s : string) : option Z :=
  option_map (fun d => Z.of_N (N.of_uint d)) (NilEmpty.uint_of_string s).

(** [n] hundredths is a multiple of 0.01 nearest to the magnitude of the
    finite number [x]: for [x = m * 2^-k] the distance |n/100 - m/2^k| is at
    most 0.005, written without fractions; for an integer [x] the hundredths
    are exact. *)
Definition nearest_hundredths (x : float) (n : Z) : Prop :=
  match x with
  | S754_zero _ => n = 0
  | S754_finite _ m (Zneg k) =>
      2 * Z.abs (n * 2 ^ Zpos k - Zpos m * 100) <= 2 ^ Zpos k
  | S754_finite _ m e => n = Zpos m * 2 ^ e * 100
  | _ => False
  end.

(** A line of the output as the specification describes it, character by
    character: every field between two double quotes (character 34), a comma
    between two fields, carriage return and line feed (characters 13 and 10)
    at the end. *)
Definition quoted (field : string) : string :=
  String "034" (field ++ String "034" EmptyString).

Fixpoint row_text (fields : list string) : string :=
  match fields with
  | [] => String "013" (String "010" EmptyString)
  | [f] => quoted f ++ String "013" (String "010" EmptyString)
  | f :: rest => quoted f ++ String "," (row_text rest)
  end.

(** The Python ints that convert to a float: beyond the range of binary64
    the interpreter raises [OverflowError] at [base * decade], which
    [of_int] does not model; a statement that carries this condition is
    about the decades on which the model is the code's. *)
Definition fits_float (n : Z) : bool := is_finite (of_int n).

(* ================================================================== *)
(** * Loops that append are maps in generation order *)
(* ================================================================== *)

Section Loops.

Context {A B : Type}.
Variable f : A -> result B.

Lemma map_result_app (xs ys : list A) :
  map_result f (xs ++ ys)%list =
  (us <- map_result f xs ;; vs <- map_result f ys ;; Ok (us ++ vs)%list).
Proof.
  induction xs as [|x xs IH]; simpl.
  - destruct (map_result f ys); reflexivity.
  - destruct (f x) as [y|e]; simpl; [|reflexivity].
    rewrite IH.
    destruct (map_result f xs) as [us|e]; simpl; [|reflexivity].
    destruct (map_result f ys) as [vs|e]; reflexivity.
Qed.

(** A loop whose body appends what a map yields for [g x] appends, in the
    end, what the map yields for all the [g x] in a row. *)
Lemma for_each_appends {X : Type} (g : X -> list A)
    (body : list B -> X -> result (list B)) :
  (forall acc x,
      body acc x = (ys <- map_result f (g x) ;; Ok (acc ++ ys)%list)) ->
  forall xs acc,
    for_each xs body acc =
    (ys <- map_result f (flat_map g xs) ;; Ok (acc ++ ys)%list).
Proof.
  intros Hbody xs.
  induction xs as [|x xs IH]; intros acc; simpl.
  - now rewrite app_nil_r.
  - rewrite Hbody, map_result_app.
    destruct (map_result f (g x)) as [us|e]; simpl; [|reflexivity].
    rewrite IH.
    destruct (map_result f (flat_map g xs)) as [vs|e]; simpl; [|reflexivity].
    now rewrite app_assoc.
Qed.

Lemma map_result_length (xs : list A) (ys : list B) :
  map_result f xs = Ok ys -> List.length ys = List.length xs.
Proof.
  revert ys; induction xs as [|x xs IH]; simpl; intros ys H.
  - now inversion H.
  - destruct (f x) as [y|e]; simpl in H; [|discriminate].
    destruct (map_result f xs) as [us|e]; simpl in H; [|discriminate].
    inversion H; subst; simpl. now rewrite (IH us).
Qed.

(** Each result of a successful map is the image of the item at its place. *)
Lemma map_result_Forall2 (xs : list A) (ys : list B) :
  map_result f xs = Ok ys -> Forall2 (fun x y => f x = Ok y) xs ys.
Proof.
  revert ys; induction xs as [|x xs IH]; simpl; intros ys H.
  - inversion H; constructor.
  - destruct (f x) as [y|e] eqn:Hx; simpl in H; [|discriminate].
    destruct (map_result f xs) as [us|e]; simpl in H; [|discriminate].
    inversion H; subst. constructor; auto.
Qed.

(** A map raises as soon as one item does, and only then. *)
Lemma map_result_raises (xs : list A) (x : A) (e : exn) :
  In x xs -> f x = Raise e ->
  exists x' e', In x' xs /\ f x' = Raise e' /\ map_result f xs = Raise e'.
Proof.
  induction xs as [|a xs IH]; simpl; intros Hin Hx; [contradiction|].
  destruct (f a) as [y|e0] eqn:Ha; simpl.
  - destruct Hin as [->|Hin]; [congruence|].
    destruct (IH Hin Hx) as (x' & e' & Hin' & Hx' & Hm).
    exists x', e'. rewrite Hm. auto.
  - exists a, e0. auto.
Qed.

Lemma map_result_In (xs : list A) (ys : list B) (y : B) :
  map_result f xs = Ok ys -> In y ys -> exists x, In x xs /\ f x = Ok y.
Proof.
  revert ys; induction xs as [|a xs IH]; simpl; intros ys H Hin.
  - inversion H; subst; contradiction.
  - destruct (f a) as [b|e] eqn:Ha; simpl in H; [|discriminate].
    destruct (map_result f xs) as [us|e]; simpl in H; [|discriminate].
    inversion H; subst.
    destruct Hin as [->|Hin].
    + exists a; auto.
    + destruct (IH us eq_refl Hin) as (x & Hx & Hfx). exists x; auto.
Qed.

End Loops.

Lemma flat_map_singleton {X Y : Type} (h : X -> Y) (xs : list X) :
  flat_map (fun x => [h x]) xs = map h xs.
Proof.
  induction xs as [|x xs IH]; simpl; [reflexivity|now rewrite IH].
Qed.

(** The two nested loops of [resistor_list]. *)
Lemma resistor_list_spec package tolerance series decades :
  resistor_list package tolerance series decades =
  map_result construct
    (flat_map (fun decade =>
       map (fun base => (mul base (of_int decade), package, tolerance))
           series) decades).
Proof.
  unfold resistor_list.
  rewrite (for_each_appends construct
             (fun decade =>
                map (fun base => (mul base (of_int decade), package, tolerance))
                    series)).
  - destruct (map_result _ _); reflexivity.
  - intros acc decade.
    rewrite (for_each_appends construct
               (fun base => [(mul base (of_int decade), package, tolerance)])).
    + now rewrite flat_map_singleton.
    + intros acc' base. simpl.
      destruct (YageoResistor_init _ _ _); reflexivity.
Qed.

(** The loops of [gen_resistor_csv] and the boundary list build the records
    in generation order. *)
Lemma generation_loops pk st de :
  for_each pk (fun resistors package =>
    for_each st (fun resistors '(series, tolerance) =>
      more <- resistor_list package tolerance series de ;;
      Ok (resistors ++ more)%list) resistors) [] =
  map_result construct (expansion pk st de).
Proof.
  unfold expansion.
  rewrite (for_each_appends construct
    (fun package =>
       flat_map (fun st0 : list float * float =>
         flat_map (fun decade =>
           map (fun base => (mul base (of_int decade), package, snd st0))
               (fst st0)) de) st)).
  - destruct (map_result _ _); reflexivity.
  - intros acc package.
    apply (for_each_appends construct
      (fun st0 : list float * float =>
         flat_map (fun decade =>
           map (fun base => (mul base (of_int decade), package, snd st0))
               (fst st0)) de)).
    intros acc' [series tolerance]. simpl.
    now rewrite resistor_list_spec.
Qed.

Lemma boundary_list bd :
  map_result (fun '(resistance, package, tolerance) =>
                YageoResistor_init resistance package tolerance) bd =
  map_result construct bd.
Proof.
  induction bd as [|[[r p] t] bd IH]; simpl; [reflexivity|].
  now rewrite IH.
Qed.

Lemma write_rows_trace (rs : list YageoResistor) (f : string) (w : world) :
  io_for_each rs (fun resistor => writerow f (values (database_row resistor))) w
  = (Ok tt,
     (w ++ map (fun y => Write f (csv_line (values (database_row y)))) rs)%list).
Proof.
  revert w; induction rs as [|r rs IH]; intros w; simpl.
  - unfold io_ret. now rewrite app_nil_r.
  - unfold io_bind, writerow, write. rewrite IH.
    now rewrite <- app_assoc.
Qed.

(** A run of the generator: it raises what the construction of the records
    raises and leaves the file system alone, or it writes the table. *)
Lemma gen_resistor_csv_from_run pk st de bd w :
  gen_resistor_csv_from pk st de bd w =
  match records_of pk st de bd with
  | Raise e => (Raise e, w)
  | Ok [] => (Raise (IndexError "list index out of range"),
              (w ++ [Open output_path; Close output_path])%list)
  | Ok rs => (Ok tt, (w ++ output output_path (map csv_line (table rs)))%list)
  end.
Proof.
  unfold gen_resistor_csv_from, records_of, generation_order.
  unfold io_bind at 1, lift at 1.
  rewrite generation_loops, map_result_app.
  destruct (map_result construct (expansion pk st de)) as [us|e]; simpl;
    [|reflexivity].
  unfold io_bind at 1, lift at 1.
  rewrite boundary_list.
  destruct (map_result construct bd) as [vs|e]; simpl; [|reflexivity].
  unfold with_open.
  destruct (us ++ vs)%list as [|r0 rs] eqn:Hrs.
  - simpl. unfold io_bind, lift. simpl. now rewrite <- app_assoc.
  - unfold io_bind at 1, lift at 1, first.
    unfold io_bind at 1, writerow at 1, write at 1.
    rewrite write_rows_trace.
    unfold output, table, output_path, headers, field_names.
    f_equal. simpl.
    repeat rewrite <- app_assoc. simpl.
    now rewrite !map_map.
Qed.

(* ================================================================== *)
(** * Strings: stripping and replacing *)
(* ================================================================== *)

Lemma append_assoc (a b c : string) : (a ++ b) ++ c = a ++ (b ++ c).
Proof.
  induction a as [|x a IH]; simpl; [reflexivity|now rewrite IH].
Qed.

Lemma append_empty_r (a : string) : a ++ EmptyString = a.
Proof.
  induction a as [|x a IH]; simpl; [reflexivity|now rewrite IH].
Qed.

Lemma length_append (a b : string) :
  String.length (a ++ b) = (String.length a + String.length b)%nat.
Proof.
  induction a as [|x a IH]; simpl; [reflexivity|now rewrite IH].
Qed.

Lemma str_forall_append P (a b : string) :
  str_forall P (a ++ b) = (str_forall P a && str_forall P b)%bool.
Proof.
  induction a as [|x a IH]; simpl; [reflexivity|].
  now rewrite IH, andb_assoc.
Qed.

Lemma str_forall_impl (P Q : ascii -> bool) (s : string) :
  (forall c, P c = true -> Q c = true) ->
  str_forall P s = true -> str_forall Q s = true.
Proof.
  intros HPQ. induction s as [|c s IH]; simpl; [reflexivity|].
  intros H. apply andb_true_iff in H as [Hc Hs].
  now rewrite (HPQ c Hc), (IH Hs).
Qed.

(** Stripping stops at the last character that is not to be stripped. *)
Lemma rstrip_stops chars (a : string) (c : ascii) (b : string) :
  mem_ascii c chars = false ->
  rstrip chars (a ++ String c b) = a ++ String c (rstrip chars b).
Proof.
  intros Hc. induction a as [|x a IH]; simpl.
  - rewrite Hc. now destruct (rstrip chars b).
  - rewrite IH. now destruct a.
Qed.

Lemma rstrip_forall P chars (s : string) :
  str_forall P s = true -> str_forall P (rstrip chars s) = true.
Proof.
  induction s as [|c s IH]; simpl; [reflexivity|].
  intros H. apply andb_true_iff in H as [Hc Hs].
  specialize (IH Hs).
  destruct (rstrip chars s) as [|d t].
  - destruct (mem_ascii c chars); simpl; [reflexivity|now rewrite Hc].
  - simpl in *. now rewrite Hc, IH.
Qed.

(** What is left after stripping does not end with a stripped character. *)
Lemma rstrip_last chars (s t : string) (c : ascii) :
  rstrip chars s = t ++ String c EmptyString -> mem_ascii c chars = false.
Proof.
  revert t; induction s as [|x s IH]; simpl; intros t H.
  - destruct t; discriminate.
  - destruct (rstrip chars s) as [|d u] eqn:Hs.
    + destruct (mem_ascii x chars) eqn:Hx; [destruct t; discriminate|].
      destruct t as [|y t]; simpl in H.
      * now inversion H; subst.
      * inversion H. destruct t; discriminate.
    + destruct t as [|y t]; simpl in H; [discriminate|].
      inversion H; subst. now apply (IH t).
Qed.

Lemma replace_absent old new (s : string) :
  str_forall (differs old) s = true -> replace old new s = s.
Proof.
  induction s as [|c s IH]; simpl; [reflexivity|].
  intros H. apply andb_true_iff in H as [Hc Hs].
  unfold differs in Hc. apply negb_true_iff in Hc.
  now rewrite Hc, (IH Hs).
Qed.

(** Replacing the only occurrence. *)
Lemma replace_once old new (a b : string) :
  str_forall (differs old) a = true ->
  str_forall (differs old) b = true ->
  replace old new (a ++ String old b) = a ++ new ++ b.
Proof.
  intros Ha Hb. induction a as [|x a IH]; simpl.
  - now rewrite Ascii.eqb_refl, (replace_absent _ _ _ Hb).
  - simpl in Ha. apply andb_true_iff in Ha as [Hx Ha].
    unfold differs in Hx. apply negb_true_iff in Hx.
    now rewrite Hx, (IH Ha).
Qed.

Lemma quote_field_plain (field : string) :
  no_dquote field = true -> quote_field field = in_quotes field.
Proof.
  intros H. unfold quote_field, in_quotes.
  now rewrite (replace_absent dquote _ field H).
Qed.

(* ================================================================== *)
(** * The shape of a formatted number *)
(* ================================================================== *)

Lemma digits_differ (c : ascii) (s : string) :
  is_digit c = false -> digits_only s = true -> str_forall (differs c) s = true.
Proof.
  intros Hc. apply str_forall_impl. intros d Hd.
  unfold differs. apply negb_true_iff.
  destruct (Ascii.eqb d c) eqn:E; [|reflexivity].
  apply Ascii.eqb_eq in E. congruence.
Qed.

Lemma string_of_uint_digits (d : Decimal.uint) :
  digits_only (NilEmpty.string_of_uint d) = true.
Proof.
  induction d; simpl; auto.
Qed.

Lemma decimal_digits (n : Z) : digits_only (decimal n) = true.
Proof.
  unfold decimal, NilZero.string_of_uint.
  destruct (N.to_uint (Z.to_N n)); try reflexivity;
    apply (string_of_uint_digits (_ _)).
Qed.

Lemma zeros_digits (k : nat) : digits_only (zeros k) = true.
Proof.
  induction k; simpl; auto.
Qed.

Lemma zeros_length (k : nat) : String.length (zeros k) = k.
Proof.
  induction k; simpl; auto.
Qed.

Lemma substring_split (s : string) (k : nat) :
  (k <= String.length s)%nat ->
  substring 0 k s ++ substring k (String.length s - k) s = s.
Proof.
  revert k; induction s as [|c s IH]; intros k Hk; simpl in Hk.
  - assert (k = 0)%nat as -> by lia. reflexivity.
  - destruct k as [|k].
    + simpl. f_equal. specialize (IH 0%nat ltac:(lia)).
      rewrite Nat.sub_0_r in IH. simpl in IH.
      destruct s; [reflexivity|]. simpl in *. exact IH.
    + simpl. f_equal. apply IH. lia.
Qed.

Lemma substring_prefix_length (s : string) (k : nat) :
  (k <= String.length s)%nat -> String.length (substring 0 k s) = k.
Proof.
  revert k; induction s as [|c s IH]; intros k Hk; simpl in Hk.
  - assert (k = 0)%nat as -> by lia. reflexivity.
  - destruct k as [|k]; simpl; [reflexivity|]. rewrite IH; lia.
Qed.

(** Integer digits, a point, then exactly [digits] fraction digits. *)
Lemma fixed_point_shape (digits : nat) (n : Z) :
  exists ip fp,
    fixed_point digits n = ip ++ String "." fp /\
    digits_only ip = true /\ (1 <= String.length ip)%nat /\
    digits_only fp = true /\ String.length fp = digits.
Proof.
  unfold fixed_point.
  set (d := zeros (S digits - String.length (decimal n)) ++ decimal n).
  assert (Hd : digits_only d = true).
  { unfold d, digits_only. rewrite str_forall_append.
    apply andb_true_iff; split; [apply zeros_digits|apply decimal_digits]. }
  assert (Hlen : (S digits <= String.length d)%nat).
  { unfold d. rewrite length_append, zeros_length. lia. }
  set (k := (String.length d - digits)%nat).
  assert (Hk : (k <= String.length d)%nat) by (unfold k; lia).
  pose proof (substring_split d k Hk) as Hsplit.
  replace (String.length d - k)%nat with digits in Hsplit by (unfold k; lia).
  exists (substring 0 k d), (substring k digits d).
  rewrite <- Hsplit in Hd. unfold digits_only in Hd.
  rewrite str_forall_append in Hd. apply andb_true_iff in Hd as [H1 H2].
  assert (Hl := f_equal String.length Hsplit).
  rewrite length_append, (substring_prefix_length d k Hk) in Hl.
  repeat split; auto.
  - rewrite (substring_prefix_length d k Hk). unfold k. lia.
  - unfold k in *. lia.
Qed.

Lemma format_f_shape (digits : nat) (x : float) :
  is_finite x = true ->
  exists ip fp,
    format_f digits x = sign_str (sign_of x) ++ ip ++ String "." fp /\
    digits_only ip = true /\ (1 <= String.length ip)%nat /\
    digits_only fp = true /\ String.length fp = digits.
Proof.
  destruct x as [s|s| |s m e]; simpl; try discriminate; intros _.
  - destruct (fixed_point_shape digits 0) as (ip & fp & -> & H).
    now exists ip, fp.
  - destruct (fixed_point_shape digits (scaled digits m e)) as (ip & fp & -> & H).
    now exists ip, fp.
Qed.

(** The rounded integer is a nearest one: it is off by half a unit at most. *)
Lemma round_half_even_nearest (n d : Z) :
  0 < d -> 2 * Z.abs (round_half_even n d * d - n) <= d.
Proof.
  intros Hd. unfold round_half_even.
  pose proof (Z.div_mod n d ltac:(lia)) as Hn.
  pose proof (Z.mod_pos_bound n d Hd) as Hr.
  destruct (Z.compare_spec (2 * (n mod d)) d) as [H|H|H];
    [destruct (Z.even (n / d))| |]; nia.
Qed.

(** The digits of a formatted number denote the rounded number of
    hundredths. *)
Lemma number_of_decimal (n : Z) :
  0 <= n -> number_of_digits (decimal n) = Some n.
Proof.
  intros Hn. unfold number_of_digits, decimal, NilZero.string_of_uint.
  pose proof (DecimalN.Unsigned.of_to (Z.to_N n)) as Hd.
  destruct (N.to_uint (Z.to_N n)) eqn:E;
    [simpl in *; f_equal; lia|..];
    rewrite NilEmpty.usu; unfold option_map; rewrite Hd; f_equal; lia.
Qed.

Lemma number_of_zeros (k : nat) (s : string) :
  number_of_digits (zeros k ++ s) = number_of_digits s.
Proof.
  induction k as [|k IH]; [reflexivity|].
  rewrite <- IH. unfold number_of_digits. simpl.
  destruct (NilEmpty.uint_of_string (zeros k ++ s)); reflexivity.
Qed.

Lemma round_half_even_nonneg (n d : Z) :
  0 <= n -> 0 < d -> 0 <= round_half_even n d.
Proof.
  intros Hn Hd. unfold round_half_even.
  pose proof (Z.div_pos n d Hn Hd).
  destruct (2 * (n mod d) ?= d)%Z; [destruct (Z.even (n / d))| |]; lia.
Qed.

Lemma scaled_nonneg (digits : nat) (m : positive) (e : Z) :
  0 <= scaled digits m e.
Proof.
  assert (H10 : 0 < 10 ^ Z.of_nat digits) by (apply Z.pow_pos_nonneg; lia).
  destruct e as [|k|k]; unfold scaled.
  - simpl (2 ^ 0). lia.
  - assert (0 < 2 ^ Z.pos k) by (apply Z.pow_pos_nonneg; lia). nia.
  - apply round_half_even_nonneg; [lia|apply Z.pow_pos_nonneg; lia].
Qed.

Lemma scaled_nearest (s : bool) (m : positive) (e : Z) :
  nearest_hundredths (S754_finite s m e) (scaled 2 m e).
Proof.
  destruct e as [|k|k]; unfold nearest_hundredths, scaled;
    change (10 ^ Z.of_nat 2) with 100; try reflexivity.
  apply round_half_even_nearest. apply Z.pow_pos_nonneg; lia.
Qed.

Lemma fixed_point_number (digits : nat) (n : Z) :
  0 <= n ->
  exists ip fp,
    fixed_point digits n = ip ++ String "." fp /\
    digits_only ip = true /\ (1 <= String.length ip)%nat /\
    digits_only fp = true /\ String.length fp = digits /\
    number_of_digits (ip ++ fp) = Some n.
Proof.
  intros Hn. unfold fixed_point.
  set (d := zeros (S digits - String.length (decimal n)) ++ decimal n).
  assert (Hd : digits_only d = true).
  { unfold d, digits_only. rewrite str_forall_append.
    apply andb_true_iff; split; [apply zeros_digits|apply decimal_digits]. }
  assert (Hlen : (S digits <= String.length d)%nat).
  { unfold d. rewrite length_append, zeros_length. lia. }
  assert (Hnum : number_of_digits d = Some n).
  { unfold d. rewrite number_of_zeros. now apply number_of_decimal. }
  set (k := (String.length d - digits)%nat).
  assert (Hk : (k <= String.length d)%nat) by (unfold k; lia).
  pose proof (substring_split d k Hk) as Hsplit.
  replace (String.length d - k)%nat with digits in Hsplit by (unfold k; lia).
  exists (substring 0 k d), (substring k digits d).
  rewrite Hsplit.
  rewrite <- Hsplit in Hd. unfold digits_only in Hd.
  rewrite str_forall_append in Hd. apply andb_true_iff in Hd as [H1 H2].
  assert (Hl := f_equal String.length Hsplit).
  rewrite length_append, (substring_prefix_length d k Hk) in Hl.
  repeat split; auto.
  - rewrite (substring_prefix_length d k Hk). unfold k. lia.
  - unfold k in *. lia.
Qed.

Lemma format_f_number (x : float) :
  is_finite x = true ->
  exists ip fp n,
    format_f 2 x = sign_str (sign_of x) ++ ip ++ String "." fp /\
    digits_only ip = true /\ (1 <= String.length ip)%nat /\
    digits_only fp = true /\ String.length fp = 2%nat /\
    number_of_digits (ip ++ fp) = Some n /\ nearest_hundredths x n.
Proof.
  destruct x as [s|s| |s m e]; simpl format_f; simpl sign_of;
    try discriminate; intros _.
  - destruct (fixed_point_number 2 0 ltac:(lia))
      as (ip & fp & -> & H1 & H2 & H3 & H4 & H5).
    exists ip, fp, 0. repeat split; auto.
  - destruct (fixed_point_number 2 _ (scaled_nonneg 2 m e))
      as (ip & fp & -> & H1 & H2 & H3 & H4 & H5).
    exists ip, fp, (scaled 2 m e).
    do 6 (split; [assumption || reflexivity|]). apply scaled_nearest.
Qed.

(** Stripping the zeros of a formatted number keeps its point; replacing the
    point puts the letter between the integer digits and what is left of the
    fraction digits. *)
Lemma strip_and_replace (letter : ascii) (s : bool) (ip fp : string) :
  digits_only ip = true -> digits_only fp = true ->
  replace "." (String letter EmptyString)
          (rstrip "0" (sign_str s ++ ip ++ String "." fp))
  = sign_str s ++ ip ++ String letter (rstrip "0" fp).
Proof.
  intros Hip Hfp.
  rewrite <- append_assoc, rstrip_stops by reflexivity.
  rewrite replace_once.
  - now rewrite append_assoc.
  - rewrite str_forall_append. apply andb_true_iff; split.
    + now destruct s.
    + now apply digits_differ.
  - apply digits_differ; [reflexivity|]. now apply rstrip_forall.
Qed.

(* ================================================================== *)
(** * Comparison of floats *)
(* ================================================================== *)

Lemma SFcompare_antisym (x y : float) :
  SFcompare x y = option_map CompOpp (SFcompare y x).
Proof.
  destruct x as [sx|sx| |sx mx ex], y as [sy|sy| |sy my ey]; simpl;
    try reflexivity;
    try (destruct sx; reflexivity); try (destruct sy; reflexivity);
    try (destruct sx, sy; reflexivity).
  change (Pos.compare_cont Eq mx my) with (mx ?= my)%positive.
  change (Pos.compare_cont Eq my mx) with (my ?= mx)%positive.
  rewrite (Z.compare_antisym ey ex), (Pos.compare_antisym my mx).
  destruct sx, sy; try reflexivity;
    destruct (ey ?= ex); simpl; try reflexivity;
    destruct (my ?= mx)%positive; reflexivity.
Qed.

Lemma SFcompare_nan (x y : float) :
  SFcompare x y = None <-> is_nan x = true \/ is_nan y = true.
Proof.
  destruct x as [sx|sx| |sx mx ex], y as [sy|sy| |sy my ey]; simpl;
    split; intros H; try discriminate; auto;
    destruct H; discriminate.
Qed.

(** [not (x < y)] means [y <= x], or one of the two is a NaN. *)
Lemma ltb_false (x y : float) :
  ltb x y = false <-> leb y x = true \/ is_nan x = true \/ is_nan y = true.
Proof.
  unfold ltb, leb, SFltb, SFleb.
  rewrite (SFcompare_antisym y x).
  pose proof (SFcompare_nan x y) as Hnan.
  destruct (SFcompare x y) as [[| |]|]; simpl; split; intros H;
    try reflexivity; try discriminate; auto.
  - destruct H as [H|H]; [discriminate|].
    apply Hnan in H. discriminate.
  - right. now apply Hnan.
Qed.

(** [not (x <= y)] means [y < x], or one of the two is a NaN. *)
Lemma leb_false (x y : float) :
  leb x y = false <-> ltb y x = true \/ is_nan x = true \/ is_nan y = true.
Proof.
  unfold ltb, leb, SFltb, SFleb.
  rewrite (SFcompare_antisym y x).
  pose proof (SFcompare_nan x y) as Hnan.
  destruct (SFcompare x y) as [[| |]|]; simpl; split; intros H;
    try reflexivity; try discriminate; auto.
  - destruct H as [H|H]; [discriminate|]. apply Hnan in H. discriminate.
  - destruct H as [H|H]; [discriminate|]. apply Hnan in H. discriminate.
  - right. now apply Hnan.
Qed.

Lemma of_int_0 : of_int 0 = S754_zero false.
Proof. reflexivity. Qed.

Lemma of_int_1000 : of_int 1000 = S754_finite false 8796093022208000 (-43).
Proof. reflexivity. Qed.

Lemma of_int_1000000 :
  of_int 1000000 = S754_finite false 8589934592000000 (-33).
Proof. reflexivity. Qed.

Lemma of_int_10000000 :
  of_int 10000000 = S754_finite false 5368709120000000 (-29).
Proof. reflexivity. Qed.

(** Below a positive bound is below any positive bound of larger exponent. *)
Lemma ltb_leb_finite (r : float) (m m' : positive) (e e' : Z) :
  e < e' ->
  ltb r (S754_finite false m e) = true ->
  leb r (S754_finite false m' e') = true.
Proof.
  intros He.
  unfold ltb, leb, SFltb, SFleb.
  destruct r as [s|s| |s mr er]; simpl; try discriminate; try reflexivity.
  - destruct s; [reflexivity|discriminate].
  - destruct s; [reflexivity|].
    destruct (Z.compare_spec er e); destruct (Z.compare_spec er e');
      try reflexivity; try discriminate; lia.
Qed.

(** A number between zero and a positive bound is zero or a positive finite
    number, with the exponent of the bound at most. *)
Lemma between_finite (r : float) (m' : positive) (e' : Z) :
  leb (S754_zero false) r = true ->
  leb r (S754_finite false m' e') = true ->
  (exists s, r = S754_zero s) \/
  (exists m e, r = S754_finite false m e /\ e <= e').
Proof.
  unfold leb, SFleb.
  destruct r as [s|s| |s m e]; simpl; try discriminate.
  - intros _ _. left. now exists s.
  - destruct s; discriminate.
  - destruct s; [discriminate|]. intros _ H. right. exists m, e. split; auto.
    destruct (Z.compare_spec e e'); try lia; discriminate.
Qed.

(* ================================================================== *)
(** * Rounding never overflows on small numbers *)
(* ================================================================== *)

Lemma digits2_pos_size (p : positive) : digits2_pos p = Pos.size p.
Proof.
  induction p; simpl; congruence.
Qed.

Lemma Zdigits2_log2 (m : Z) : 0 < m -> Zdigits2 m = Z.log2 m + 1.
Proof.
  destruct m as [|p|p]; try lia. intros _. simpl.
  rewrite digits2_pos_size. destruct p; simpl; lia.
Qed.

Lemma Zdigits2_nonneg (m : Z) : 0 <= Zdigits2 m.
Proof.
  destruct m; simpl; lia.
Qed.

Lemma Zdigits2_mono (a b : Z) : 0 <= a <= b -> Zdigits2 a <= Zdigits2 b.
Proof.
  intros [Ha Hab].
  destruct (Z.eq_dec a 0) as [->|Hne]; [apply Zdigits2_nonneg|].
  rewrite !Zdigits2_log2 by lia.
  pose proof (Z.log2_le_mono a b Hab). lia.
Qed.

Lemma Zdigits2_succ (a : Z) : 0 <= a -> Zdigits2 (a + 1) <= Zdigits2 a + 1.
Proof.
  intros Ha.
  destruct (Z.eq_dec a 0) as [->|Hne]; [simpl; lia|].
  rewrite !Zdigits2_log2 by lia.
  pose proof (Z.log2_succ_le a). unfold Z.succ in *. lia.
Qed.

Lemma Zdigits2_shiftl (m s : Z) :
  0 < m -> 0 <= s -> Zdigits2 (Z.shiftl m s) = Zdigits2 m + s.
Proof.
  intros Hm Hs.
  assert (0 < Z.shiftl m s).
  { rewrite Z.shiftl_mul_pow2 by lia. apply Z.mul_pos_pos; [lia|].
    apply Z.pow_pos_nonneg; lia. }
  rewrite !Zdigits2_log2 by lia.
  rewrite Z.log2_shiftl by lia. lia.
Qed.

Lemma shr_1_bounds (r : shr_record) :
  0 <= shr_m r -> 0 <= shr_m (shr_1 r) <= shr_m r.
Proof.
  destruct r as [m r s]; simpl.
  destruct m as [|p|p]; simpl; try lia; destruct p; simpl; lia.
Qed.

Lemma iter_pos_invariant {X : Type} (P : X -> Prop) (f : X -> X) :
  (forall x, P x -> P (f x)) ->
  forall n x, P x -> P (iter_pos f n x).
Proof.
  intros Hf. induction n; simpl; auto.
Qed.

Lemma shr_bounds (mrs : shr_record) (e n M : Z) :
  0 <= shr_m mrs <= M ->
  0 <= shr_m (fst (shr mrs e n)) <= M /\
  snd (shr mrs e n) = e + Z.max 0 n.
Proof.
  intros H. destruct n as [|p|p]; simpl; try (split; [exact H|lia]).
  split; [|lia].
  apply (iter_pos_invariant (fun r => 0 <= shr_m r <= M)); auto.
  intros x Hx. pose proof (shr_1_bounds x). lia.
Qed.

Lemma shr_m_of_loc (m : Z) (l : location) : shr_m (shr_record_of_loc m l) = m.
Proof.
  destruct l as [|[]]; reflexivity.
Qed.

Lemma round_nearest_even_bounds (m : Z) (l : location) :
  m <= round_nearest_even m l <= m + 1.
Proof.
  destruct l as [|[]]; simpl; try lia. destruct (Z.even m); lia.
Qed.

(** Rounding a mantissa of at most 200 bits under an exponent of at most 100
    yields zero or a finite number of the given sign. *)
Lemma binary_round_aux_finite (sx : bool) (mx ex : Z) (lx : location) :
  0 <= mx -> Zdigits2 mx <= 200 -> ex <= 100 ->
  let z := binary_round_aux prec emax sx mx ex lx in
  is_finite z = true /\ sign_of z = sx.
Proof.
  intros Hmx Hd Hex. unfold binary_round_aux, shr_fexp.
  set (n1 := fexp prec emax (Zdigits2 mx + ex) - ex).
  destruct (shr (shr_record_of_loc mx lx) ex n1) as [mrs1 e1] eqn:E1.
  pose proof (shr_bounds (shr_record_of_loc mx lx) ex n1 mx) as B1.
  rewrite shr_m_of_loc, E1 in B1. simpl in B1.
  destruct (B1 ltac:(lia)) as [Bm1 Be1]. clear B1.
  set (m1 := round_nearest_even (shr_m mrs1) (loc_of_shr_record mrs1)).
  pose proof (round_nearest_even_bounds (shr_m mrs1) (loc_of_shr_record mrs1))
    as Hm1. fold m1 in Hm1.
  set (n2 := fexp prec emax (Zdigits2 m1 + e1) - e1).
  destruct (shr (shr_record_of_loc m1 loc_Exact) e1 n2) as [mrs2 e2] eqn:E2.
  pose proof (shr_bounds (shr_record_of_loc m1 loc_Exact) e1 n2 m1) as B2.
  rewrite E2 in B2. simpl in B2.
  destruct (B2 ltac:(lia)) as [Bm2 Be2]. clear B2.
  assert (Hd1 : Zdigits2 m1 <= 201).
  { pose proof (Zdigits2_mono m1 (mx + 1) ltac:(lia)).
    pose proof (Zdigits2_succ mx Hmx). lia. }
  assert (He2 : e2 <= 971).
  { unfold n1, n2, fexp, emin, prec, emax in *. lia. }
  destruct (shr_m mrs2) as [|p|p] eqn:Em; simpl.
  - split; reflexivity.
  - apply Z.leb_le in He2.
    change (Z.sub emax prec) with 971. rewrite He2.
    split; reflexivity.
  - lia.
Qed.

Lemma valid_digits (s : bool) (m : positive) (e : Z) :
  valid (S754_finite s m e) = true -> Zpos (digits2_pos m) <= 53.
Proof.
  unfold valid, valid_binary, bounded, canonical_mantissa, fexp, emin,
    prec, emax.
  intros H. apply andb_true_iff in H as [H _]. apply Z.eqb_eq in H. lia.
Qed.

(** The quotient of a positive number of small exponent by a positive
    normal number of exponent at least -43 is zero or finite, and not
    negative. *)
Lemma div_small_finite (mx : positive) (ex : Z) (my : positive) (ey : Z) :
  Zpos (digits2_pos mx) <= 53 -> ex <= -29 ->
  Zpos (digits2_pos my) = 53 -> -43 <= ey ->
  let z := div (S754_finite false mx ex) (S754_finite false my ey) in
  is_finite z = true /\ sign_of z = false.
Proof.
  intros Hdx Hex Hdy Hey. unfold div, SFdiv.
  destruct (SFdiv_core_binary prec emax (Zpos mx) ex (Zpos my) ey)
    as [[mz ez] lz] eqn:E.
  unfold SFdiv_core_binary in E.
  set (e' := Z.min (fexp prec emax
                      (Zdigits2 (Zpos mx) + ex - (Zdigits2 (Zpos my) + ey)))
                   (ex - ey)) in E.
  set (s := ex - ey - e') in E.
  set (m' := match s with
             | Zpos _ => Z.shiftl (Zpos mx) s
             | Z0 => Zpos mx
             | Zneg _ => 0
             end) in E.
  assert (Hq : fst (Z.div_eucl m' (Zpos my)) = m' / Zpos my)
    by (unfold Z.div; destruct (Z.div_eucl m' (Zpos my)); reflexivity).
  destruct (Z.div_eucl m' (Zpos my)) as [q r] eqn:Eq.
  simpl in Hq. inversion E; subst mz ez lz. clear E.
  assert (Hs : s <= 105).
  { unfold s, e', fexp, emin, prec, emax. simpl Zdigits2.
    pose proof (Pos2Z.is_pos (digits2_pos mx)). lia. }
  assert (Hm' : 0 <= m' /\ Zdigits2 m' <= 53 + 105).
  { unfold m'. destruct s as [|p|p] eqn:Es.
    - simpl. lia.
    - split; [apply Z.shiftl_nonneg; lia|].
      rewrite Zdigits2_shiftl by lia. simpl Zdigits2. lia.
    - simpl. lia. }
  assert (Hqb : 0 <= q <= m').
  { rewrite Hq. split.
    - apply Z.div_pos; lia.
    - apply Z.div_le_upper_bound; [lia|]. nia. }
  apply binary_round_aux_finite.
  - lia.
  - pose proof (Zdigits2_mono q m' Hqb). lia.
  - unfold e'. lia.
Qed.

(* ================================================================== *)
(** * The manufacturer part number *)
(* ================================================================== *)

Lemma ltb_1000_leb (r : float) :
  ltb r (of_int 1000) = true -> leb r (of_int 10000000) = true.
Proof.
  rewrite of_int_1000, of_int_10000000. apply ltb_leb_finite. lia.
Qed.

Lemma ltb_1000000_leb (r : float) :
  ltb r (of_int 1000000) = true -> leb r (of_int 10000000) = true.
Proof.
  rewrite of_int_1000000, of_int_10000000. apply ltb_leb_finite. lia.
Qed.

(** The builder, check by check: resistance first, then package, then
    tolerance. *)
Lemma mpn_cases (r : float) (p : string) (t : float) :
  yageo_resistor_mpn r p t =
  if leb r (of_int 10000000) then
    if str_in p mpn_packages then
      if (eqb t (lit 10 1) || eqb t (lit 50 1))%bool then
        Ok ("RC" ++ p ++ tolerance_code t ++ "R" ++ "-" ++ "07"
                 ++ scaled_mantissa r ++ "L")
      else Raise invalid_tolerance
    else Raise invalid_package
  else Raise invalid_resistance.
Proof.
  unfold yageo_resistor_mpn, scaled_mantissa, magnitude_letter, scaled_value,
    tolerance_code, mpn_packages, invalid_tolerance, invalid_package,
    invalid_resistance, bind.
  destruct (ltb r (of_int 1000)) eqn:H1.
  { rewrite (ltb_1000_leb r H1).
    destruct (str_in p _); [|reflexivity].
    destruct (eqb t (lit 10 1)); [reflexivity|].
    destruct (eqb t (lit 50 1)); reflexivity. }
  destruct (ltb r (of_int 1000000)) eqn:H2.
  { rewrite (ltb_1000000_leb r H2).
    destruct (str_in p _); [|reflexivity].
    destruct (eqb t (lit 10 1)); [reflexivity|].
    destruct (eqb t (lit 50 1)); reflexivity. }
  destruct (leb r (of_int 10000000)); [|reflexivity].
  destruct (str_in p _); [|reflexivity].
  destruct (eqb t (lit 10 1)); [reflexivity|].
  destruct (eqb t (lit 50 1)); reflexivity.
Qed.

(** C1, as amended.  For every resistance between 0 and 10,000,000, every
    package among the six supported codes and every tolerance equal to 1.0 or
    5.0, the part-number builder returns exactly
    "RC" + package + toleranceCode + "R" + "-" + "07" + scaledMantissa + "L":
    a hyphen stands between the packaging code and the reel code. *)
Theorem mpn_format (r : float) (p : string) (t : float) :
  leb (of_int 0) r = true -> leb r (of_int 10000000) = true ->
  str_in p mpn_packages = true ->
  eqb t (lit 10 1) = true \/ eqb t (lit 50 1) = true ->
  yageo_resistor_mpn r p t =
  Ok ("RC" ++ p ++ tolerance_code t ++ "R" ++ "-" ++ "07"
           ++ scaled_mantissa r ++ "L").
Proof.
  intros _ Hr Hp Ht. rewrite mpn_cases, Hr, Hp.
  destruct Ht as [-> | ->]; [reflexivity|].
  now rewrite orb_true_r.
Qed.

Lemma mpn_format_witness :
  yageo_resistor_mpn (of_int 10000) "0603" (lit 10 1) =
  Ok ("RC" ++ "0603" ++ tolerance_code (lit 10 1) ++ "R" ++ "-" ++ "07"
           ++ scaled_mantissa (of_int 10000) ++ "L").
Proof.
  apply (mpn_format (of_int 10000) "0603" (lit 10 1));
    first [reflexivity | left; reflexivity].
Defined.

(** C1, as stated, fails: for 10 kilo-ohm, package 0603 and 1 %, an input
    of the claimed domain, the builder returns "RC0603FR-0710KL", which is
    not the concatenation without the hyphen. *)
Lemma mpn_format_without_hyphen_fails :
  leb (of_int 0) (of_int 10000) = true /\
  leb (of_int 10000) (of_int 10000000) = true /\
  str_in "0603" mpn_packages = true /\
  eqb (lit 10 1) (lit 10 1) = true /\
  yageo_resistor_mpn (of_int 10000) "0603" (lit 10 1)
    = Ok "RC0603FR-0710KL" /\
  yageo_resistor_mpn (of_int 10000) "0603" (lit 10 1)
    <> Ok ("RC" ++ "0603" ++ tolerance_code (lit 10 1) ++ "R" ++ "07"
                ++ scaled_mantissa (of_int 10000) ++ "L").
Proof.
  do 5 (split; [vm_compute; reflexivity|]).
  intros H. vm_compute in H. discriminate H.
Qed.

Lemma errors_distinct :
  invalid_resistance <> invalid_package /\
  invalid_resistance <> invalid_tolerance /\
  invalid_package <> invalid_tolerance.
Proof.
  repeat split; discriminate.
Qed.

(** C4, as amended.  The checks of the part-number builder are made in the
    order resistance, package, tolerance, and the first that fails decides
    the error: invalid-resistance if and only if the resistance is not at
    most 10,000,000 (it exceeds it, or is not a number); invalid-package if
    and only if the resistance is accepted and the package is not one of the
    six codes; invalid-tolerance if and only if resistance and package are
    accepted and the tolerance is neither 1.0 (code "F") nor 5.0 (code "J");
    a string is returned in all other cases, and in them only. *)
Theorem mpn_failures (r : float) (p : string) (t : float) :
  (yageo_resistor_mpn r p t = Raise invalid_resistance <->
     leb r (of_int 10000000) = false) /\
  (leb r (of_int 10000000) = false <->
     ltb (of_int 10000000) r = true \/ is_nan r = true) /\
  (yageo_resistor_mpn r p t = Raise invalid_package <->
     leb r (of_int 10000000) = true /\ str_in p mpn_packages = false) /\
  (yageo_resistor_mpn r p t = Raise invalid_tolerance <->
     leb r (of_int 10000000) = true /\ str_in p mpn_packages = true /\
     eqb t (lit 10 1) = false /\ eqb t (lit 50 1) = false) /\
  ((exists s, yageo_resistor_mpn r p t = Ok s) <->
     leb r (of_int 10000000) = true /\ str_in p mpn_packages = true /\
     (eqb t (lit 10 1) = true \/ eqb t (lit 50 1) = true)) /\
  tolerance_code (lit 10 1) = "F" /\ tolerance_code (lit 50 1) = "J".
Proof.
  destruct errors_distinct as (D1 & D2 & D3).
  rewrite mpn_cases.
  split; [|split; [|split; [|split; [|split; [|split; reflexivity]]]]].
  - destruct (leb r _); [|tauto].
    destruct (str_in p _);
      [destruct (eqb t (lit 10 1) || eqb t (lit 50 1))%bool|];
      split; intros H; try discriminate; inversion H; congruence.
  - rewrite leb_false. split.
    + intros [H|[H|H]]; auto. rewrite of_int_10000000 in H. discriminate.
    + intros [H|H]; auto.
  - destruct (leb r _); [|split; [intros H; inversion H; congruence|easy]].
    destruct (str_in p _); [|tauto].
    destruct (eqb t (lit 10 1) || eqb t (lit 50 1))%bool;
      split; intros H; try discriminate; try (inversion H; congruence);
      destruct H; discriminate.
  - destruct (leb r _); [|split; [intros H; inversion H; congruence|easy]].
    destruct (str_in p _);
      [|split; [intros H; inversion H; congruence|intros (_ & H & _); easy]].
    destruct (eqb t (lit 10 1)), (eqb t (lit 50 1)); simpl;
      split; intros H; try discriminate; try tauto;
      destruct H as (_ & _ & H1 & H2); discriminate.
  - destruct (leb r _); [|split; [intros [s H]; discriminate|easy]].
    destruct (str_in p _);
      [|split; [intros [s H]; discriminate|intros (_ & H & _); easy]].
    destruct (eqb t (lit 10 1)), (eqb t (lit 50 1)); simpl;
      split; intros H; eauto; try tauto;
      try (destruct H; discriminate);
      destruct H as (_ & _ & [H|H]); discriminate.
Qed.

(** C4, as stated, fails: for 10,000,001 ohm with tolerance 2.0, a tolerance
    that is neither 1.0 nor 5.0, the builder fails with the invalid-resistance
    error, not with the invalid-tolerance error. *)
Lemma mpn_tolerance_error_masked :
  eqb (lit 20 1) (lit 10 1) = false /\
  eqb (lit 20 1) (lit 50 1) = false /\
  yageo_resistor_mpn (of_int 10000001) "0603" (lit 20 1)
    = Raise invalid_resistance /\
  yageo_resistor_mpn (of_int 10000001) "0603" (lit 20 1)
    <> Raise invalid_tolerance.
Proof.
  do 3 (split; [vm_compute; reflexivity|]).
  intros H. vm_compute in H. discriminate H.
Qed.

Lemma in_range_cases (r : float) :
  leb (of_int 0) r = true -> leb r (of_int 10000000) = true ->
  (exists s, r = S754_zero s) \/
  (exists m e, r = S754_finite false m e /\ e <= -29).
Proof.
  rewrite of_int_0, of_int_10000000. apply between_finite.
Qed.

(** The scaled value of an accepted resistance is zero or finite, with the
    sign of the resistance. *)
Lemma scaled_value_finite (r : float) :
  valid r = true ->
  leb (of_int 0) r = true -> leb r (of_int 10000000) = true ->
  is_finite (scaled_value r) = true /\ sign_of (scaled_value r) = sign_of r.
Proof.
  intros Hv H0 H1.
  destruct (in_range_cases r H0 H1) as [[s ->]|(m & e & -> & He)].
  - unfold scaled_value. rewrite of_int_1000. split; reflexivity.
  - pose proof (valid_digits _ _ _ Hv) as Hd.
    unfold scaled_value.
    destruct (ltb _ (of_int 1000)); [split; reflexivity|].
    destruct (ltb _ (of_int 1000000)).
    + rewrite of_int_1000. apply div_small_finite; auto; lia.
    + rewrite of_int_1000000. apply div_small_finite; auto; lia.
Qed.

(** C5.  For every resistance r with 0 <= r <= 10,000,000 the builder uses
    letter "R" and r itself when r < 1,000, letter "K" and r / 1,000 when
    1,000 <= r < 1,000,000, letter "M" and r / 1,000,000 when
    1,000,000 <= r; the scaled value is formatted with two decimals (the
    digits are those of a number of hundredths nearest to it), the trailing
    zero digits of the fraction are stripped, the decimal point stays and is
    then replaced by the letter, so the mantissa is the integer digits, the
    letter, and what is left of the two fraction digits: 2500 ohm is divided
    to 2.5, formatted "2.50", stripped to "2.5" and encoded "2K5"; 10 ohm
    gives "10R", 1,050,000 ohm gives "1M05". *)
Theorem mpn_magnitude_encoding :
  (forall (r : float) (p : string) (t : float),
     valid r = true ->
     leb (of_int 0) r = true -> leb r (of_int 10000000) = true ->
     str_in p mpn_packages = true ->
     eqb t (lit 10 1) = true \/ eqb t (lit 50 1) = true ->
     exists (letter : ascii) (x : float) (ip fp : string) (n : Z),
       (ltb r (of_int 1000) = true /\ letter = "R"%char /\ x = r \/
        leb (of_int 1000) r = true /\ ltb r (of_int 1000000) = true /\
          letter = "K"%char /\ x = div r (of_int 1000) \/
        leb (of_int 1000000) r = true /\
          letter = "M"%char /\ x = div r (of_int 1000000)) /\
       format_f 2 x = sign_str (sign_of r) ++ ip ++ String "." fp /\
       digits_only ip = true /\ (1 <= String.length ip)%nat /\
       digits_only fp = true /\ String.length fp = 2%nat /\
       number_of_digits (ip ++ fp) = Some n /\ nearest_hundredths x n /\
       rstrip "0" (format_f 2 x)
         = sign_str (sign_of r) ++ ip ++ String "." (rstrip "0" fp) /\
       (forall rest, rstrip "0" fp <> rest ++ "0") /\
       yageo_resistor_mpn r p t =
       Ok ("RC" ++ p ++ tolerance_code t ++ "R" ++ "-" ++ "07"
                ++ (sign_str (sign_of r) ++ ip
                      ++ String letter (rstrip "0" fp)) ++ "L")) /\
  (* the division *)
  div (of_int 2500) (of_int 1000) = lit 25 1 /\
  div (of_int 121000) (of_int 1000) = of_int 121 /\
  div (of_int 1050000) (of_int 1000000) = lit 105 2 /\
  div (of_int 9530000) (of_int 1000000) = lit 953 2 /\
  (* two decimals, rounded to nearest, ties on the binary value to even *)
  map (format_f 2)
      [of_int 0; lit 1 1; lit 25 1; lit 105 2; of_int 10; of_int 121;
       lit 125 3; lit 375 3; lit 1005 3; lit 2675 3; lit 99999 2]
    = ["0.00"; "0.10"; "2.50"; "1.05"; "10.00"; "121.00";
       "0.12"; "0.38"; "1.00"; "2.67"; "999.99"] /\
  map number_of_digits ["000"; "010"; "250"; "105"; "1000"; "99999"]
    = [Some 0; Some 10; Some 250; Some 105; Some 1000; Some 99999] /\
  (* the zeros are stripped, the point is replaced *)
  map (rstrip "0") ["0.00"; "0.10"; "2.50"; "1.05"; "10.00"; "100.00"]
    = ["0."; "0.1"; "2.5"; "1.05"; "10."; "100."] /\
  replace "." "R" "10." = "10R" /\
  replace "." "K" "2.5" = "2K5" /\
  replace "." "M" "1.05" = "1M05" /\
  (* the part numbers *)
  map (fun r => yageo_resistor_mpn r "0603" (lit 10 1))
      [of_int 0; lit 1 1; lit 47 1; lit 105 2; of_int 10; of_int 100;
       lit 99999 2; lit 125 3; lit 375 3; lit 1005 3;
       of_int 1000; of_int 2500; of_int 10000; of_int 121000;
       of_int 1000000; of_int 1050000; of_int 9530000; of_int 10000000]
    = [Ok "RC0603FR-070RL"; Ok "RC0603FR-070R1L"; Ok "RC0603FR-074R7L";
       Ok "RC0603FR-071R05L"; Ok "RC0603FR-0710RL"; Ok "RC0603FR-07100RL";
       Ok "RC0603FR-07999R99L"; Ok "RC0603FR-070R12L"; Ok "RC0603FR-070R38L";
       Ok "RC0603FR-071RL";
       Ok "RC0603FR-071KL"; Ok "RC0603FR-072K5L"; Ok "RC0603FR-0710KL";
       Ok "RC0603FR-07121KL";
       Ok "RC0603FR-071ML"; Ok "RC0603FR-071M05L"; Ok "RC0603FR-079M53L";
       Ok "RC0603FR-0710ML"] /\
  yageo_resistor_mpn (of_int 2500) "0402" (lit 50 1) = Ok "RC0402JR-072K5L" /\
  yageo_resistor_mpn (of_int 9530000) "1210" (lit 50 1)
    = Ok "RC1210JR-079M53L".
Proof.
  split; [|do 12 (split; [vm_compute; reflexivity|]); vm_compute; reflexivity].
  intros r p t Hv H0 H1 Hp Ht.
  destruct (scaled_value_finite r Hv H0 H1) as [Hfin Hsign].
  destruct (format_f_number _ Hfin)
    as (ip & fp & n & Hfmt & Hip & Hlen & Hfp & Hl2 & Hn & Hnear).
  rewrite Hsign in Hfmt.
  assert (Hnan : is_nan r = false).
  { destruct (in_range_cases r H0 H1) as [[s ->]|(m & e & -> & _)];
      reflexivity. }
  exists (magnitude_letter r), (scaled_value r), ip, fp, n.
  split; [|do 7 (split; [assumption|]); split; [|split]].
  - unfold magnitude_letter, scaled_value.
    destruct (ltb r (of_int 1000)) eqn:L1; [left; auto|right].
    apply ltb_false in L1 as [L1|[L1|L1]];
      [|congruence|rewrite of_int_1000 in L1; discriminate].
    destruct (ltb r (of_int 1000000)) eqn:L2; [left; auto|right].
    apply ltb_false in L2 as [L2|[L2|L2]];
      [|congruence|rewrite of_int_1000000 in L2; discriminate].
    auto.
  - rewrite Hfmt, <- append_assoc, rstrip_stops by reflexivity.
    now rewrite append_assoc.
  - intros rest Hrest. now apply rstrip_last in Hrest.
  - rewrite mpn_cases, H1, Hp.
    replace (eqb t (lit 10 1) || eqb t (lit 50 1))%bool with true
      by (destruct Ht as [-> | ->]; [reflexivity|now rewrite orb_true_r]).
    unfold scaled_mantissa. rewrite Hfmt.
    now rewrite strip_and_replace.
Qed.

Lemma mpn_magnitude_encoding_witness :
  exists (letter : ascii) (x : float) (ip fp : string) (n : Z),
    (ltb (of_int 2500) (of_int 1000) = true /\ letter = "R"%char /\
       x = of_int 2500 \/
     leb (of_int 1000) (of_int 2500) = true /\
       ltb (of_int 2500) (of_int 1000000) = true /\
       letter = "K"%char /\ x = div (of_int 2500) (of_int 1000) \/
     leb (of_int 1000000) (of_int 2500) = true /\
       letter = "M"%char /\ x = div (of_int 2500) (of_int 1000000)) /\
    format_f 2 x = sign_str (sign_of (of_int 2500)) ++ ip ++ String "." fp /\
    digits_only ip = true /\ (1 <= String.length ip)%nat /\
    digits_only fp = true /\ String.length fp = 2%nat /\
    number_of_digits (ip ++ fp) = Some n /\ nearest_hundredths x n /\
    rstrip "0" (format_f 2 x)
      = sign_str (sign_of (of_int 2500)) ++ ip ++ String "." (rstrip "0" fp) /\
    (forall rest, rstrip "0" fp <> rest ++ "0") /\
    yageo_resistor_mpn (of_int 2500) "0402" (lit 50 1) =
    Ok ("RC" ++ "0402" ++ tolerance_code (lit 50 1) ++ "R" ++ "-" ++ "07"
             ++ (sign_str (sign_of (of_int 2500)) ++ ip
                   ++ String letter (rstrip "0" fp)) ++ "L").
Proof.
  apply (proj1 mpn_magnitude_encoding (of_int 2500) "0402" (lit 50 1));
    first [reflexivity | right; reflexivity].
Defined.

(* ================================================================== *)
(** * The value formatter and the footprint resolver *)
(* ================================================================== *)

(** In a tie the even neighbour is taken. *)
Lemma round_half_even_tie (n d : Z) :
  0 < d -> 2 * (n mod d) = d -> Z.even (round_half_even n d) = true.
Proof.
  intros Hd Ht. unfold round_half_even. rewrite Ht, Z.compare_refl.
  destruct (Z.even (n / d)) eqn:E; [exact E|].
  rewrite Z.even_add, E. reflexivity.
Qed.

(** Above a positive bound is above any positive bound of smaller
    exponent. *)
Lemma leb_finite_leb (x : float) (m m' : positive) (e e' : Z) :
  e < e' ->
  leb (S754_finite false m' e') x = true ->
  leb (S754_finite false m e) x = true.
Proof.
  intros He.
  unfold leb, SFleb.
  destruct x as [s|s| |s mx ex]; simpl; try discriminate; try reflexivity.
  - destruct s; [discriminate|reflexivity].
  - destruct s; [discriminate|].
    destruct (Z.compare_spec e' ex); destruct (Z.compare_spec e ex);
      try reflexivity; try discriminate; lia.
Qed.

(** C6.  The value formatter maps 0.1 to "0.1", 10 to "10", 1000 to "1k",
    2500 to "2.5k", 1000000 to "1M", 10.234 to "10.23" and 0 to "0"; below
    1,000 it is the generic path (two decimals, zeros then point stripped, no
    suffix), zero included; and the two decimals are those of an integer
    number of hundredths nearest to the value, the even one in a tie. *)
Theorem value_formatter_contract :
  resistor_value_str (lit 1 1) = "0.1" /\
  resistor_value_str (of_int 10) = "10" /\
  resistor_value_str (of_int 1000) = "1k" /\
  resistor_value_str (of_int 2500) = "2.5k" /\
  resistor_value_str (of_int 1000000) = "1M" /\
  resistor_value_str (lit 10234 3) = "10.23" /\
  resistor_value_str (of_int 0) = "0" /\
  resistor_value_str (lit 0 1) = "0" /\
  (forall x, geb x (of_int 1000) = false ->
     resistor_value_str x = rstrip "." (rstrip "0" (format_f 2 x))) /\
  (forall s m e,
     format_f 2 (S754_finite s m e)
       = sign_str s ++ fixed_point 2 (scaled 2 m e)) /\
  (forall m k,
     2 * Z.abs (scaled 2 m (Zneg k) * 2 ^ Zpos k - Zpos m * 100)
       <= 2 ^ Zpos k) /\
  (forall m k,
     2 * ((Zpos m * 100) mod 2 ^ Zpos k) = 2 ^ Zpos k ->
     Z.even (scaled 2 m (Zneg k)) = true).
Proof.
  do 8 (split; [vm_compute; reflexivity|]).
  split; [|split; [|split]].
  - intros x Hx. unfold resistor_value_str.
    assert (H6 : geb x (of_int 1000000) = false).
    { unfold geb in *. destruct (SFleb (of_int 1000000) x) eqn:E; [|reflexivity].
      rewrite of_int_1000000 in E. rewrite of_int_1000 in Hx.
      apply (leb_finite_leb x 8796093022208000 _ (-43)) in E; [|lia].
      unfold leb in E. congruence. }
    rewrite H6, Hx. now rewrite append_empty_r.
  - reflexivity.
  - intros m k. unfold scaled.
    change (10 ^ Z.of_nat 2) with 100.
    apply round_half_even_nearest. apply Z.pow_pos_nonneg; lia.
  - intros m k. unfold scaled.
    change (10 ^ Z.of_nat 2) with 100.
    apply round_half_even_tie. apply Z.pow_pos_nonneg; lia.
Qed.

(** C7.  The footprint resolver returns "Resistor_SMD:R_0402_1005Metric" for
    package "0402" and "Resistor_SMD:R_0603_1608Metric" for package "0603";
    for every other package string it fails with its invalid-package error,
    and so for the four other codes that the part-number builder accepts. *)
Theorem footprint_resolver :
  resistor_footprint_str "0402" = Ok "Resistor_SMD:R_0402_1005Metric" /\
  resistor_footprint_str "0603" = Ok "Resistor_SMD:R_0603_1608Metric" /\
  (forall package, package <> "0402" -> package <> "0603" ->
     resistor_footprint_str package = Raise invalid_footprint_package) /\
  (forall package s, resistor_footprint_str package = Ok s ->
     package = "0402" \/ package = "0603") /\
  invalid_footprint_package = ValueError "Invalid package type" /\
  Forall (fun package =>
            str_in package mpn_packages = true /\
            yageo_resistor_mpn (of_int 10000) package (lit 10 1)
              = Ok ("RC" ++ package ++ "FR-0710KL") /\
            resistor_footprint_str package = Raise invalid_footprint_package)
         ["0201"; "0805"; "1206"; "1210"].
Proof.
  split; [vm_compute; reflexivity|]. split; [vm_compute; reflexivity|].
  split; [|split; [|split; [reflexivity|]]].
  - intros package H4 H6. unfold resistor_footprint_str.
    destruct (String.eqb_spec package "0402"); [contradiction|].
    destruct (String.eqb_spec package "0603"); [contradiction|].
    reflexivity.
  - intros package s. unfold resistor_footprint_str.
    destruct (String.eqb_spec package "0402"); [auto|].
    destruct (String.eqb_spec package "0603"); [auto|].
    discriminate.
  - repeat (apply Forall_cons;
            [split; [|split]; vm_compute; reflexivity|]).
    apply Forall_nil.
Qed.

(* ================================================================== *)
(** * The catalogue *)
(* ================================================================== *)

Lemma construct_ok (s : specification) (y : YageoResistor) :
  construct s = Ok y ->
  spec_of y = s /\
  part_id (database_row y) = identifier s /\
  metadata_ok (tolerance y) (database_row y).
Proof.
  destruct s as [[r p] t]. unfold construct, YageoResistor_init, bind.
  destruct (resistor_footprint_str p); [|discriminate].
  destruct (yageo_resistor_mpn r p t); [|discriminate].
  intros H. inversion H; subst; clear H.
  unfold metadata_ok. simpl. repeat split; reflexivity.
Qed.

(** The construction of a record fails with one of the invalid-input errors
    only. *)
Lemma construct_raises (s : specification) (e : exn) :
  construct s = Raise e -> is_invalid_input e.
Proof.
  destruct s as [[r p] t]. unfold construct, YageoResistor_init, bind.
  unfold is_invalid_input.
  destruct (resistor_footprint_str p) eqn:F.
  - rewrite mpn_cases.
    destruct (leb r _); [|intros H; inversion H; auto].
    destruct (str_in p _); [|intros H; inversion H; auto].
    destruct (_ || _)%bool; [discriminate|intros H; inversion H; auto].
  - unfold resistor_footprint_str in F.
    destruct (String.eqb p "0402"); [discriminate|].
    destruct (String.eqb p "0603"); [discriminate|].
    inversion F; subst. intros H; inversion H; auto.
Qed.

Lemma length_flat_map_const {X Y : Type} (g : X -> list Y) (n : nat)
    (xs : list X) :
  (forall x, List.length (g x) = n) ->
  List.length (flat_map g xs) = (List.length xs * n)%nat.
Proof.
  intros Hg. induction xs as [|x xs IH]; simpl; [reflexivity|].
  rewrite length_app, Hg, IH. reflexivity.
Qed.

(** Packages times decades times the total number of series entries. *)
Lemma length_expansion pk (st : list (list float * float)) (de : list Z) :
  List.length (expansion pk st de) =
  (List.length pk *
     (list_sum (map (fun s => List.length (fst s)) st) * List.length de))%nat.
Proof.
  unfold expansion.
  apply length_flat_map_const. intros package.
  induction st as [|[series tol] st IH]; [reflexivity|].
  cbn [flat_map map list_sum fst snd].
  rewrite length_app.
  etransitivity.
  - apply f_equal2; [|exact IH].
    apply (length_flat_map_const _ (List.length series)).
    intros d. apply length_map.
  - unfold list_sum. cbn [fold_right]. nia.
Qed.

Lemma generation_order_eq pk st de bd :
  generation_order pk st de bd = (expansion pk st de ++ bd)%list.
Proof. reflexivity. Qed.

Lemma records_of_eq pk st de bd :
  records_of pk st de bd =
  map_result construct (generation_order pk st de bd).
Proof. reflexivity. Qed.

Section Records.

Variables (pk : list string) (st : list (list float * float)).
Variables (de : list Z) (bd : list specification).
Variable rs : list YageoResistor.
Hypothesis Hrs : records_of pk st de bd = Ok rs.

Lemma records_constructed :
  Forall2 (fun s y => construct s = Ok y) (generation_order pk st de bd) rs.
Proof.
  rewrite records_of_eq in Hrs. now apply map_result_Forall2.
Qed.

Lemma records_length :
  List.length rs = List.length (generation_order pk st de bd).
Proof.
  rewrite records_of_eq in Hrs. now apply map_result_length in Hrs.
Qed.

Lemma Forall2_map_eq {X Y Z : Type} (R : X -> Y -> Prop) (f : Y -> Z)
    (g : X -> Z) (xs : list X) (ys : list Y) :
  (forall x y, R x y -> f y = g x) ->
  Forall2 R xs ys -> map f ys = map g xs.
Proof.
  intros HR H. induction H; simpl; [reflexivity|].
  now rewrite (HR _ _ H), IHForall2.
Qed.

Lemma records_specs : map spec_of rs = generation_order pk st de bd.
Proof.
  rewrite <- (map_id (generation_order pk st de bd)).
  apply (Forall2_map_eq (fun s y => construct s = Ok y));
    [|exact records_constructed].
  intros s y Hs. apply (construct_ok s y Hs).
Qed.

Lemma records_identifiers :
  map (fun y => part_id (database_row y)) rs =
  map identifier (generation_order pk st de bd).
Proof.
  apply (Forall2_map_eq (fun s y => construct s = Ok y));
    [|exact records_constructed].
  intros s y Hs. apply (construct_ok s y Hs).
Qed.

Lemma records_metadata :
  Forall (fun y => metadata_ok (tolerance y) (database_row y)) rs.
Proof.
  apply Forall_forall. intros y Hy.
  rewrite records_of_eq in Hrs.
  destruct (map_result_In construct _ _ y Hrs Hy) as (s & _ & Hs).
  apply (construct_ok s y Hs).
Qed.

(** A run on tables that yield at least one record writes the table. *)
Lemma run_writes (w : world) :
  (0 < List.length rs)%nat ->
  gen_resistor_csv_from pk st de bd w =
  (Ok tt, (w ++ output output_path (map csv_line (table rs)))%list).
Proof.
  intros Hlen. rewrite gen_resistor_csv_from_run, Hrs.
  destruct rs; [simpl in Hlen; lia|reflexivity].
Qed.

End Records.

Lemma records_of_run :
  records_of packages series_tolerances decades boundary = Ok catalogue.
Proof.
  assert (H : is_ok (records_of packages series_tolerances decades boundary)
              = true) by (vm_compute; reflexivity).
  unfold catalogue, ok_or.
  destruct (records_of packages series_tolerances decades boundary);
    [reflexivity|discriminate].
Qed.

Lemma str_in_In (x : string) (xs : list string) :
  str_in x xs = true <-> In x xs.
Proof.
  induction xs as [|y ys IH]; simpl; [split; [discriminate|contradiction]|].
  rewrite orb_true_iff, IH, String.eqb_eq. split; intros [H|H]; auto.
Qed.

Lemma distinct_NoDup (xs : list string) : distinct xs = true -> NoDup xs.
Proof.
  induction xs as [|x xs IH]; simpl; intros H; [constructor|].
  apply andb_true_iff in H as [H1 H2]. constructor; auto.
  intros Hin. apply str_in_In in Hin. rewrite Hin in H1. discriminate.
Qed.

Lemma NoDup_map_injective {X Y : Type} (f : X -> Y) (xs : list X) :
  NoDup (map f xs) ->
  forall x y, In x xs -> In y xs -> f x = f y -> x = y.
Proof.
  induction xs as [|a xs IH]; simpl; intros Hnd x y Hx Hy Hxy; [contradiction|].
  inversion Hnd as [|? ? Hnotin Hnd']; subst.
  destruct Hx as [->|Hx], Hy as [->|Hy]; auto.
  - exfalso. apply Hnotin. rewrite Hxy. now apply in_map.
  - exfalso. apply Hnotin. rewrite <- Hxy. now apply in_map.
Qed.

Lemma generation_order_length :
  List.length (generation_order packages series_tolerances decades boundary)
  = (List.length packages *
       ((List.length E48 + List.length E24) * List.length decades)
     + List.length boundary)%nat.
Proof.
  rewrite generation_order_eq, length_app, length_expansion.
  unfold series_tolerances, list_sum. cbn [map fold_right fst].
  now rewrite Nat.add_0_r.
Qed.

Lemma table_sizes :
  (List.length packages = 2 /\ List.length E48 = 48 /\
   List.length E24 = 24 /\ List.length decades = 7 /\
   List.length boundary = 4)%nat.
Proof.
  unfold E48, E24. rewrite !length_map.
  repeat split; vm_compute; reflexivity.
Qed.

Lemma catalogue_length : List.length catalogue = 1012%nat.
Proof.
  rewrite (records_length _ _ _ _ _ records_of_run), generation_order_length.
  destruct table_sizes as (-> & -> & -> & -> & ->).
  reflexivity.
Qed.

Lemma gen_resistor_csv_run (w : world) :
  gen_resistor_csv w =
  (Ok tt, (w ++ output output_path (map csv_line (table catalogue)))%list).
Proof.
  unfold gen_resistor_csv.
  apply (run_writes _ _ _ _ _ records_of_run).
  rewrite catalogue_length. lia.
Qed.

(** C2.  The generator builds 2 * (48 + 24) * 7 + 4 = 1012 records, in this
    order: for each package of ["0402"; "0603"], for each pair (E48 with 1 %,
    then E24 with 5 %), for each of the seven decades 1 .. 1,000,000, for
    each base value of the series; then the four boundary records: zero ohm
    in both packages at 5 %, ten megohm in both packages at 1 %.  Each record
    is the one constructed from its specification, and the run writes them
    in that order. *)
Theorem catalogue_generation_order :
  records_of packages series_tolerances decades boundary = Ok catalogue /\
  (forall w, gen_resistor_csv w =
     (Ok tt, (w ++ output output_path (map csv_line (table catalogue)))%list)) /\
  List.length catalogue =
    (List.length packages *
       ((List.length E48 + List.length E24) * List.length decades)
     + List.length boundary)%nat /\
  (List.length packages = 2 /\ List.length E48 = 48 /\
   List.length E24 = 24 /\ List.length decades = 7 /\
   List.length boundary = 4)%nat /\
  List.length catalogue = (2 * (48 + 24) * 7 + 4)%nat /\
  List.length catalogue = 1012%nat /\
  map spec_of catalogue =
    (flat_map (fun package =>
       flat_map (fun st : list float * float =>
         flat_map (fun decade =>
           map (fun base => (mul base (of_int decade), package, snd st))
               (fst st))
           decades)
         series_tolerances)
       packages
     ++ boundary)%list /\
  packages = ["0402"; "0603"] /\
  series_tolerances = [(E48, lit 10 1); (E24, lit 50 1)] /\
  decades = [1; 10; 100; 1000; 10000; 100000; 1000000] /\
  boundary = [(lit 0 1, "0402", lit 50 1);
              (lit 0 1, "0603", lit 50 1);
              (of_int 10000000, "0402", lit 10 1);
              (of_int 10000000, "0603", lit 10 1)] /\
  Forall2 (fun s y => construct s = Ok y)
    (generation_order packages series_tolerances decades boundary)
    catalogue /\
  map (fun i => nth_error (map (fun y => part_id (database_row y)) catalogue) i)
      [0; 47; 48; 335; 336; 503; 504; 1007; 1008; 1009; 1010; 1011; 1012]%nat
  = [Some "R-1-0402-1%"; Some "R-9.53-0402-1%"; Some "R-10-0402-1%";
     Some "R-9.53M-0402-1%"; Some "R-1-0402-5%"; Some "R-9.1M-0402-5%";
     Some "R-1-0603-1%"; Some "R-9.1M-0603-5%"; Some "R-0-0402-5%";
     Some "R-0-0603-5%"; Some "R-10M-0402-1%"; Some "R-10M-0603-1%"; None].
Proof.
  split; [exact records_of_run|].
  split; [exact gen_resistor_csv_run|].
  split; [rewrite (records_length _ _ _ _ _ records_of_run);
          exact generation_order_length|].
  split; [exact table_sizes|].
  split; [exact catalogue_length|].
  split; [exact catalogue_length|].
  split; [exact (records_specs _ _ _ _ _ records_of_run)|].
  do 4 (split; [reflexivity|]).
  split; [exact (records_constructed _ _ _ _ _ records_of_run)|].
  vm_compute; reflexivity.
Qed.

(** C3.  In the generated catalogue of 1012 records the part identifiers
    "R-" + value + "-" + package + "-" + tolerance are pairwise different:
    no identifier occurs twice, and two generated specifications with the
    same identifier are the same specification. *)
Theorem catalogue_identifiers_unique :
  records_of packages series_tolerances decades boundary = Ok catalogue /\
  (forall w, gen_resistor_csv w =
     (Ok tt, (w ++ output output_path (map csv_line (table catalogue)))%list)) /\
  NoDup (map (fun y => part_id (database_row y)) catalogue) /\
  List.length (map (fun y => part_id (database_row y)) catalogue) = 1012%nat /\
  map (fun y => part_id (database_row y)) catalogue =
    map identifier
        (generation_order packages series_tolerances decades boundary) /\
  (forall s1 s2,
     In s1 (generation_order packages series_tolerances decades boundary) ->
     In s2 (generation_order packages series_tolerances decades boundary) ->
     identifier s1 = identifier s2 -> s1 = s2).
Proof.
  pose proof (records_identifiers _ _ _ _ _ records_of_run) as Hids.
  assert (Hnd : NoDup (map (fun y => part_id (database_row y)) catalogue)).
  { apply distinct_NoDup. vm_compute; reflexivity. }
  split; [exact records_of_run|].
  split; [exact gen_resistor_csv_run|].
  split; [exact Hnd|].
  split; [rewrite length_map; exact catalogue_length|].
  split; [exact Hids|].
  apply NoDup_map_injective. rewrite <- Hids. exact Hnd.
Qed.

(* ================================================================== *)
(** * Failures, serialisation and metadata *)
(* ================================================================== *)

(** C8.  If the construction of any record of the generation raises (an
    invalid-package, invalid-tolerance or invalid-resistance error), the run
    ends with such an error, the one of the first record that fails, and the
    file system is left as it was: the output file is neither opened nor
    written, since all records are constructed before the file is opened. *)
Theorem generation_failure_writes_nothing
    (pk : list string) (st : list (list float * float)) (de : list Z)
    (bd : list specification) (s : specification) (e : exn) (w : world) :
  In s (generation_order pk st de bd) ->
  construct s = Raise e ->
  exists s' e',
    In s' (generation_order pk st de bd) /\
    construct s' = Raise e' /\
    is_invalid_input e' /\
    records_of pk st de bd = Raise e' /\
    gen_resistor_csv_from pk st de bd w = (Raise e', w).
Proof.
  intros Hin Hs.
  destruct (map_result_raises construct _ s e Hin Hs)
    as (s' & e' & Hin' & Hs' & Hm).
  exists s', e'.
  assert (Hr : records_of pk st de bd = Raise e')
    by (rewrite records_of_eq; exact Hm).
  repeat split; auto.
  - exact (construct_raises s' e' Hs').
  - now rewrite gen_resistor_csv_from_run, Hr.
Qed.

Lemma generation_failure_writes_nothing_witness :
  exists s' e',
    In s' (generation_order ["0805"] [([lit 10 1], lit 10 1)] [1] []) /\
    construct s' = Raise e' /\
    is_invalid_input e' /\
    records_of ["0805"] [([lit 10 1], lit 10 1)] [1] [] = Raise e' /\
    gen_resistor_csv_from ["0805"] [([lit 10 1], lit 10 1)] [1] [] []
      = (Raise e', []).
Proof.
  apply (generation_failure_writes_nothing
           ["0805"] [([lit 10 1], lit 10 1)] [1] []
           (mul (lit 10 1) (of_int 1), "0805", lit 10 1)
           invalid_footprint_package []).
  - left. reflexivity.
  - vm_compute. reflexivity.
Defined.

Lemma forallb_Forall {X : Type} (P : X -> bool) (xs : list X) :
  forallb P xs = true -> Forall (fun x => P x = true) xs.
Proof.
  intros H. apply Forall_forall. intros x Hx.
  rewrite forallb_forall in H. auto.
Qed.

Lemma csv_line_plain (fields : list string) :
  forallb no_dquote fields = true ->
  csv_line fields = join "," (map in_quotes fields) ++ crlf.
Proof.
  intros H. unfold csv_line. f_equal. f_equal.
  apply map_ext_in. intros f Hf. apply quote_field_plain.
  rewrite forallb_forall in H. auto.
Qed.

Lemma lines_length (rs : list YageoResistor) :
  List.length (map csv_line (table rs)) = S (List.length rs).
Proof.
  unfold table. rewrite length_map. simpl. now rewrite length_map.
Qed.

(** A line whose fields hold no double quote is the text the specification
    describes. *)
Lemma row_text_join (fields : list string) :
  join "," (map in_quotes fields) ++ crlf = row_text fields.
Proof.
  induction fields as [|f rest IH]; [reflexivity|].
  destruct rest as [|g rest]; [reflexivity|].
  change (join "," (map in_quotes (f :: g :: rest)))
    with (in_quotes f ++ "," ++ join "," (map in_quotes (g :: rest))).
  rewrite !append_assoc, IH. reflexivity.
Qed.

(** C9.  The serialiser opens the output file, writes one line for the
    field names part_id, value, component, manufacturer,
    manufacturer_part_number, rating, package, lcsc, or_equivalent, symbol,
    footprint, datasheet, in that order, then one line per record in
    generation order, and closes the file; every line is made of twelve
    fields, each between double quotes, separated by commas, and ends with
    carriage return and line feed; the number of lines is the number of
    records plus one.  The header line, the line of the first record
    (1 ohm, 0402, 1%) and the line of the last one (10M, 0603, 1%) are given
    character by character. *)
Theorem serializer_rows :
  (forall w, gen_resistor_csv w =
     (Ok tt,
      (w ++ Open "yageo_resistors.csv"
            :: map (Write "yageo_resistors.csv")
                   (map csv_line
                      (field_names
                         :: map (fun y => values (database_row y)) catalogue))
            ++ [Close "yageo_resistors.csv"])%list)) /\
  records_of packages series_tolerances decades boundary = Ok catalogue /\
  field_names =
    ["part_id"; "value"; "component"; "manufacturer";
     "manufacturer_part_number"; "rating"; "package"; "lcsc";
     "or_equivalent"; "symbol"; "footprint"; "datasheet"] /\
  (forall row, headers row = field_names) /\
  (forall row, values row =
     [part_id row; value row; component row; manufacturer row;
      manufacturer_part_number row; rating row; package row; lcsc row;
      or_equivalent row; symbol row; footprint row; datasheet row]) /\
  List.length
    (map csv_line
       (field_names :: map (fun y => values (database_row y)) catalogue))
    = S (List.length catalogue) /\
  List.length
    (map csv_line
       (field_names :: map (fun y => values (database_row y)) catalogue))
    = 1013%nat /\
  Forall (fun fields =>
            List.length fields = 12%nat /\
            csv_line fields = join "," (map in_quotes fields) ++ crlf /\
            csv_line fields = row_text fields)
         (field_names :: map (fun y => values (database_row y)) catalogue) /\
  (* a line, character by character *)
  csv_line ["a"; "b"] =
    String "034" (String "a" (String "034" (String ","
      (String "034" (String "b" (String "034"
        (String "013" (String "010" EmptyString)))))))) /\
  (* a double quote inside a field is written twice *)
  csv_line [String "a" (String "034" (String "b" EmptyString))] =
    String "034" (String "a" (String "034" (String "034" (String "b"
      (String "034" (String "013" (String "010" EmptyString))))))) /\
  (* the header line *)
  csv_line field_names =
    quoted "part_id" ++ "," ++ quoted "value" ++ "," ++ quoted "component"
      ++ "," ++ quoted "manufacturer" ++ ","
      ++ quoted "manufacturer_part_number" ++ "," ++ quoted "rating" ++ ","
      ++ quoted "package" ++ "," ++ quoted "lcsc" ++ ","
      ++ quoted "or_equivalent" ++ "," ++ quoted "symbol" ++ ","
      ++ quoted "footprint" ++ "," ++ quoted "datasheet"
      ++ String "013" (String "010" EmptyString) /\
  (* the trace of a run that starts with an untouched file system *)
  List.length (snd (gen_resistor_csv [])) = 1015%nat /\
  firstn 3 (snd (gen_resistor_csv [])) =
    [Open "yageo_resistors.csv";
     Write "yageo_resistors.csv"
       (quoted "part_id" ++ "," ++ quoted "value" ++ ","
          ++ quoted "component" ++ "," ++ quoted "manufacturer" ++ ","
          ++ quoted "manufacturer_part_number" ++ "," ++ quoted "rating"
          ++ "," ++ quoted "package" ++ "," ++ quoted "lcsc" ++ ","
          ++ quoted "or_equivalent" ++ "," ++ quoted "symbol" ++ ","
          ++ quoted "footprint" ++ "," ++ quoted "datasheet"
          ++ String "013" (String "010" EmptyString));
     Write "yageo_resistors.csv"
       (quoted "R-1-0402-1%" ++ "," ++ quoted "1" ++ ","
          ++ quoted "Resistor 1 0402 1% 0.1W" ++ "," ++ quoted "Yageo" ++ ","
          ++ quoted "RC0402FR-071RL" ++ "," ++ quoted "1%, 0.1W" ++ ","
          ++ quoted "0402" ++ "," ++ quoted EmptyString ++ ","
          ++ quoted "y" ++ "," ++ quoted "Device:R_Small" ++ ","
          ++ quoted "Resistor_SMD:R_0402_1005Metric" ++ ","
          ++ quoted "https://www.yageo.com/upload/media/product/products/datasheet/rchip/PYu-RC_Group_51_RoHS_L_12.pdf"
          ++ String "013" (String "010" EmptyString))] /\
  skipn 1013 (snd (gen_resistor_csv [])) =
    [Write "yageo_resistors.csv"
       (quoted "R-10M-0603-1%" ++ "," ++ quoted "10M" ++ ","
          ++ quoted "Resistor 10M 0603 1% 0.1W" ++ "," ++ quoted "Yageo"
          ++ "," ++ quoted "RC0603FR-0710ML" ++ "," ++ quoted "1%, 0.1W"
          ++ "," ++ quoted "0603" ++ "," ++ quoted EmptyString ++ ","
          ++ quoted "y" ++ "," ++ quoted "Device:R_Small" ++ ","
          ++ quoted "Resistor_SMD:R_0603_1608Metric" ++ ","
          ++ quoted "https://www.yageo.com/upload/media/product/products/datasheet/rchip/PYu-RC_Group_51_RoHS_L_12.pdf"
          ++ String "013" (String "010" EmptyString));
     Close "yageo_resistors.csv"] /\
  (* whatever the tables, for decades that convert to a float *)
  (forall pk st de bd rs w,
     forallb fits_float de = true ->
     records_of pk st de bd = Ok rs -> (0 < List.length rs)%nat ->
     gen_resistor_csv_from pk st de bd w =
       (Ok tt, (w ++ output output_path (map csv_line (table rs)))%list) /\
     List.length (map csv_line (table rs)) = S (List.length rs) /\
     (Forall (fun y => Forall (fun field => no_dquote field = true)
                              (values (database_row y))) rs ->
      map csv_line (table rs) = map row_text (table rs))).
Proof.
  split; [exact gen_resistor_csv_run|].
  split; [exact records_of_run|].
  split; [reflexivity|].
  split; [reflexivity|].
  split; [reflexivity|].
  split; [exact (lines_length catalogue)|].
  split; [rewrite <- catalogue_length; exact (lines_length catalogue)|].
  split.
  { assert (H : forallb (fun fields =>
                  Nat.eqb (List.length fields) 12 && forallb no_dquote fields)
                  (table catalogue) = true) by (vm_compute; reflexivity).
    apply forallb_Forall in H. revert H. apply Forall_impl.
    intros fields H. apply andb_true_iff in H as [H1 H2].
    split; [now apply Nat.eqb_eq|].
    split; [now apply csv_line_plain|].
    rewrite <- row_text_join. now apply csv_line_plain. }
  do 6 (split; [vm_compute; reflexivity|]).
  intros pk st de bd rs w _ Hrs Hlen. split; [|split].
  - exact (run_writes pk st de bd rs Hrs w Hlen).
  - exact (lines_length rs).
  - intros Hq. apply map_ext_in. intros fields Hin.
    rewrite <- row_text_join. apply csv_line_plain.
    destruct Hin as [<-|Hin]; [reflexivity|].
    apply in_map_iff in Hin as (y & <- & Hy).
    apply forallb_forall. intros field Hf.
    rewrite Forall_forall in Hq. specialize (Hq y Hy).
    rewrite Forall_forall in Hq. auto.
Qed.

(** C10.  Every record the constructor builds, and so every record of the
    catalogue, has manufacturer "Yageo", symbol "Device:R_Small", the fixed
    Yageo datasheet URL, an empty lcsc field, or_equivalent "y", and as
    rating the formatted tolerance followed by ", 0.1W": "1%, 0.1W" or
    "5%, 0.1W" in the catalogue. *)
Theorem generated_record_metadata :
  (forall r p t y,
     YageoResistor_init r p t = Ok y ->
     manufacturer (database_row y) = "Yageo" /\
     symbol (database_row y) = "Device:R_Small" /\
     datasheet (database_row y) = "https://www.yageo.com/upload/media/product/products/datasheet/rchip/PYu-RC_Group_51_RoHS_L_12.pdf" /\
     lcsc (database_row y) = EmptyString /\
     or_equivalent (database_row y) = "y" /\
     rating (database_row y) = resistor_tolerance_str t ++ ", 0.1W") /\
  records_of packages series_tolerances decades boundary = Ok catalogue /\
  (forall w, gen_resistor_csv w =
     (Ok tt, (w ++ output output_path (map csv_line (table catalogue)))%list)) /\
  Forall (fun y =>
            manufacturer (database_row y) = "Yageo" /\
            symbol (database_row y) = "Device:R_Small" /\
            datasheet (database_row y) = "https://www.yageo.com/upload/media/product/products/datasheet/rchip/PYu-RC_Group_51_RoHS_L_12.pdf" /\
            lcsc (database_row y) = EmptyString /\
            or_equivalent (database_row y) = "y" /\
            rating (database_row y)
              = resistor_tolerance_str (tolerance y) ++ ", 0.1W" /\
            (rating (database_row y) = "1%, 0.1W" \/
             rating (database_row y) = "5%, 0.1W"))
         catalogue /\
  resistor_tolerance_str (lit 10 1) ++ ", 0.1W" = "1%, 0.1W" /\
  resistor_tolerance_str (lit 50 1) ++ ", 0.1W" = "5%, 0.1W".
Proof.
  split.
  { intros r p t y Hy.
    destruct (construct_ok (r, p, t) y Hy) as (Hspec & _ & Hm).
    unfold spec_of in Hspec. inversion Hspec; subst. exact Hm. }
  split; [exact records_of_run|].
  split; [exact gen_resistor_csv_run|].
  split; [|split; vm_compute; reflexivity].
  assert (H : forallb (fun y =>
                String.eqb (rating (database_row y)) "1%, 0.1W"
                || String.eqb (rating (database_row y)) "5%, 0.1W")
                catalogue = true) by (vm_compute; reflexivity).
  apply forallb_Forall in H.
  pose proof (records_metadata _ _ _ _ _ records_of_run) as Hm.
  rewrite Forall_forall in *. intros y Hy.
  destruct (Hm y Hy) as (H1 & H2 & H3 & H4 & H5 & H6).
  specialize (H y Hy). apply orb_true_iff in H.
  do 6 (split; [assumption|]).
  destruct H as [H|H]; apply String.eqb_eq in H; [left|right]; exact H.
Qed.

(* ================================================================== *)
(** * Further properties of the formatters *)
(* ================================================================== *)

Lemma string_last (s : string) :
  (1 <= String.length s)%nat ->
  exists s' c, s = s' ++ String c EmptyString.
Proof.
  induction s as [|x s IH]; simpl; [lia|]. intros _.
  destruct s as [|y s].
  - exists EmptyString, x. reflexivity.
  - destruct (IH ltac:(simpl; lia)) as (s' & c & Hs).
    exists (String x s'), c. simpl. now rewrite Hs.
Qed.

Lemma digit_not_point (c : ascii) :
  is_digit c = true -> mem_ascii c "." = false.
Proof.
  intros Hc. simpl. rewrite orb_false_r.
  destruct (Ascii.eqb_spec c "."); [subst; discriminate|reflexivity].
Qed.

(** Stripping a point from a string that ends with a digit changes
    nothing. *)
Lemma rstrip_point_after_digit (s : string) :
  digits_only s = true -> (1 <= String.length s)%nat ->
  forall a, rstrip "." (a ++ s) = a ++ s.
Proof.
  intros Hd Hlen a.
  destruct (string_last s Hlen) as (s' & c & ->).
  unfold digits_only in Hd. rewrite str_forall_append in Hd.
  apply andb_true_iff in Hd as [_ Hc]. simpl in Hc.
  rewrite andb_true_r in Hc.
  rewrite <- append_assoc.
  now rewrite rstrip_stops by (now apply digit_not_point).
Qed.

(** Zeros, then the point if it ends the string, stripped from a formatted
    number: the integer digits stay, the fraction digits stay up to the last
    one that is not a zero. *)
Lemma strip_zeros_and_point (s : bool) (ip fp : string) :
  digits_only ip = true -> (1 <= String.length ip)%nat ->
  digits_only fp = true ->
  rstrip "." (rstrip "0" (sign_str s ++ ip ++ String "." fp))
  = sign_str s ++ ip ++ fraction_part fp.
Proof.
  intros Hip Hlen Hfp.
  rewrite <- append_assoc, rstrip_stops by reflexivity.
  unfold fraction_part.
  pose proof (rstrip_forall is_digit "0" fp Hfp) as Hf.
  destruct (rstrip "0" fp) as [|c f] eqn:E.
  - replace ((sign_str s ++ ip) ++ String "." EmptyString)
      with (sign_str s ++ (ip ++ String "." EmptyString))
      by (now rewrite append_assoc).
    destruct (string_last ip Hlen) as (ip' & d & ->).
    unfold digits_only in Hip. rewrite str_forall_append in Hip.
    apply andb_true_iff in Hip as [_ Hd]. simpl in Hd.
    rewrite andb_true_r in Hd.
    rewrite (append_assoc ip'). simpl.
    rewrite <- (append_assoc (sign_str s) ip').
    rewrite rstrip_stops by (now apply digit_not_point).
    rewrite append_empty_r. simpl. now rewrite append_assoc.
  - replace ((sign_str s ++ ip) ++ String "." (String c f))
      with ((sign_str s ++ ip ++ String "." EmptyString) ++ String c f).
    + rewrite rstrip_point_after_digit; [|exact Hf|simpl; lia].
      rewrite !append_assoc. reflexivity.
    + rewrite !append_assoc. reflexivity.
Qed.

(** X1.  The tolerance formatter keeps every integer digit of the tolerance
    formatted with one decimal, drops the decimal when it is a zero, keeps
    it with its point otherwise, and appends "%": 1.0 gives "1%", 0.5 gives
    "0.5%", 10.0 gives "10%" and 100.0 gives "100%". *)
Theorem tolerance_formatter_shape :
  (forall t, is_finite t = true ->
     exists ip d,
       format_f 1 t
         = sign_str (sign_of t) ++ ip ++ String "." (String d EmptyString) /\
       digits_only ip = true /\ (1 <= String.length ip)%nat /\
       is_digit d = true /\
       resistor_tolerance_str t
         = sign_str (sign_of t) ++ ip
             ++ (if Ascii.eqb d "0" then EmptyString
                 else String "." (String d EmptyString))
             ++ "%") /\
  resistor_tolerance_str (lit 10 1) = "1%" /\
  resistor_tolerance_str (lit 5 1) = "0.5%" /\
  resistor_tolerance_str (lit 100 1) = "10%" /\
  resistor_tolerance_str (lit 1000 1) = "100%" /\
  resistor_tolerance_str (lit 0 1) = "0%".
Proof.
  split; [|repeat (split; [vm_compute; reflexivity|]); vm_compute; reflexivity].
  intros t Ht.
  destruct (format_f_shape 1 t Ht) as (ip & fp & Hfmt & Hip & Hlen & Hfp & Hl).
  destruct fp as [|d [|d' fp]]; try discriminate Hl.
  exists ip, d.
  assert (Hd : is_digit d = true).
  { unfold digits_only in Hfp. simpl in Hfp. now rewrite andb_true_r in Hfp. }
  repeat split; auto.
  unfold resistor_tolerance_str. rewrite Hfmt.
  rewrite strip_zeros_and_point by assumption.
  unfold fraction_part. simpl. rewrite orb_false_r.
  destruct (Ascii.eqb d "0"); now rewrite !append_assoc.
Qed.

(** Below a positive bound is strictly below any positive bound of larger
    exponent. *)
Lemma ltb_ltb_finite (r : float) (m m' : positive) (e e' : Z) :
  e < e' ->
  ltb r (S754_finite false m e) = true ->
  ltb r (S754_finite false m' e') = true.
Proof.
  intros He.
  unfold ltb, SFltb.
  destruct r as [s|s| |s mr er]; simpl; try discriminate; try reflexivity.
  - destruct s; [reflexivity|discriminate].
  - destruct s; [reflexivity|].
    destruct (Z.compare_spec er e); destruct (Z.compare_spec er e');
      try reflexivity; try discriminate; lia.
Qed.

Lemma geb_negb_ltb (x y : float) :
  is_nan x = false -> is_nan y = false -> geb x y = negb (ltb x y).
Proof.
  intros Hx Hy. unfold geb. fold (leb y x).
  destruct (ltb x y) eqn:L; simpl.
  - apply leb_false. auto.
  - apply ltb_false in L as [L|[L|L]]; congruence.
Qed.

(** The value formatter formats the scaled value and appends the suffix. *)
Lemma value_str_scaled (r : float) :
  is_nan r = false ->
  resistor_value_str r =
  rstrip "." (rstrip "0" (format_f 2 (scaled_value r))) ++ value_suffix r.
Proof.
  intros Hnan. unfold resistor_value_str, value_suffix, scaled_value.
  assert (N3 : is_nan (of_int 1000) = false) by (now rewrite of_int_1000).
  assert (N6 : is_nan (of_int 1000000) = false)
    by (now rewrite of_int_1000000).
  rewrite (geb_negb_ltb r _ Hnan N3), (geb_negb_ltb r _ Hnan N6).
  destruct (ltb r (of_int 1000)) eqn:L3.
  - assert (L6 : ltb r (of_int 1000000) = true).
    { rewrite of_int_1000 in L3. rewrite of_int_1000000.
      revert L3. apply ltb_ltb_finite. lia. }
    rewrite L6. reflexivity.
  - destruct (ltb r (of_int 1000000)); reflexivity.
Qed.

Lemma suffix_and_letter (r : float) :
  is_nan r = false ->
  value_suffix r = EmptyString /\ magnitude_letter r = "R"%char \/
  value_suffix r = "k" /\ magnitude_letter r = "K"%char \/
  value_suffix r = "M" /\ magnitude_letter r = "M"%char.
Proof.
  intros Hnan. unfold value_suffix, magnitude_letter.
  assert (N3 : is_nan (of_int 1000) = false) by (now rewrite of_int_1000).
  assert (N6 : is_nan (of_int 1000000) = false)
    by (now rewrite of_int_1000000).
  rewrite (geb_negb_ltb r _ Hnan N3), (geb_negb_ltb r _ Hnan N6).
  destruct (ltb r (of_int 1000)) eqn:L3.
  - assert (L6 : ltb r (of_int 1000000) = true).
    { rewrite of_int_1000 in L3. rewrite of_int_1000000.
      revert L3. apply ltb_ltb_finite. lia. }
    rewrite L6. auto.
  - destruct (ltb r (of_int 1000000)); auto.
Qed.

(** X2.  For a resistance between 0 and 10,000,000 the displayed value and
    the part number carry the same digits: with the scaled value formatted as
    integer digits, point, two fraction digits, the value string is the
    integer digits, then the fraction digits without trailing zeros behind a
    point (nothing when they are all zeros), then the suffix; the part number
    has the same integer digits, the magnitude letter in place of the point,
    and the same fraction digits; suffix and letter go together: none with
    "R", "k" with "K", "M" with "M". *)
Theorem value_and_part_number_agree (r : float) (p : string) (t : float) :
  valid r = true ->
  leb (of_int 0) r = true -> leb r (of_int 10000000) = true ->
  str_in p mpn_packages = true ->
  eqb t (lit 10 1) = true \/ eqb t (lit 50 1) = true ->
  exists ip fp : string,
    digits_only ip = true /\ (1 <= String.length ip)%nat /\
    digits_only fp = true /\ String.length fp = 2%nat /\
    resistor_value_str r
      = sign_str (sign_of r) ++ ip ++ fraction_part fp ++ value_suffix r /\
    yageo_resistor_mpn r p t
      = Ok ("RC" ++ p ++ tolerance_code t ++ "R" ++ "-" ++ "07"
                 ++ (sign_str (sign_of r) ++ ip
                       ++ String (magnitude_letter r) (rstrip "0" fp))
                 ++ "L") /\
    (value_suffix r = EmptyString /\ magnitude_letter r = "R"%char \/
     value_suffix r = "k" /\ magnitude_letter r = "K"%char \/
     value_suffix r = "M" /\ magnitude_letter r = "M"%char).
Proof.
  intros Hv H0 H1 Hp Ht.
  destruct (scaled_value_finite r Hv H0 H1) as [Hfin Hsign].
  destruct (format_f_shape 2 _ Hfin)
    as (ip & fp & Hfmt & Hip & Hlen & Hfp & Hl2).
  rewrite Hsign in Hfmt.
  assert (Hnan : is_nan r = false).
  { destruct (in_range_cases r H0 H1) as [[s ->]|(m & e & -> & _)];
      reflexivity. }
  exists ip, fp.
  do 4 (split; [assumption|]).
  split; [|split].
  - rewrite (value_str_scaled r Hnan), Hfmt.
    rewrite strip_zeros_and_point by assumption.
    now rewrite !append_assoc.
  - rewrite mpn_cases, H1, Hp.
    replace (eqb t (lit 10 1) || eqb t (lit 50 1))%bool with true
      by (destruct Ht as [-> | ->]; [reflexivity|now rewrite orb_true_r]).
    unfold scaled_mantissa. rewrite Hfmt.
    now rewrite strip_and_replace.
  - exact (suffix_and_letter r Hnan).
Qed.

Lemma value_and_part_number_agree_witness :
  exists ip fp : string,
    digits_only ip = true /\ (1 <= String.length ip)%nat /\
    digits_only fp = true /\ String.length fp = 2%nat /\
    resistor_value_str (of_int 2500)
      = sign_str (sign_of (of_int 2500)) ++ ip ++ fraction_part fp
          ++ value_suffix (of_int 2500) /\
    yageo_resistor_mpn (of_int 2500) "0603" (lit 10 1)
      = Ok ("RC" ++ "0603" ++ tolerance_code (lit 10 1) ++ "R" ++ "-" ++ "07"
                 ++ (sign_str (sign_of (of_int 2500)) ++ ip
                       ++ String (magnitude_letter (of_int 2500))
                            (rstrip "0" fp))
                 ++ "L") /\
    (value_suffix (of_int 2500) = EmptyString /\
       magnitude_letter (of_int 2500) = "R"%char \/
     value_suffix (of_int 2500) = "k" /\
       magnitude_letter (of_int 2500) = "K"%char \/
     value_suffix (of_int 2500) = "M" /\
       magnitude_letter (of_int 2500) = "M"%char).
Proof.
  apply (value_and_part_number_agree (of_int 2500) "0603" (lit 10 1));
    first [vm_compute; reflexivity | left; vm_compute; reflexivity].
Defined.

(* ================================================================== *)
(** * Further properties of the records *)
(* ================================================================== *)

Lemma footprint_errors_distinct :
  invalid_footprint_package <> invalid_resistance /\
  invalid_footprint_package <> invalid_package /\
  invalid_footprint_package <> invalid_tolerance.
Proof.
  repeat split; discriminate.
Qed.

(** X3.  The constructor of a resistor succeeds if and only if the package
    is "0402" or "0603", the resistance is at most 10,000,000 and the
    tolerance is 1.0 or 5.0.  Otherwise the first failing check decides: an
    unsupported package raises the footprint resolver's "Invalid package
    type" whatever the other arguments are; then the resistance, then the
    tolerance.  The "Invalid package" error of the part-number builder never
    leaves the constructor. *)
Theorem constructor_outcome (r : float) (p : string) (t : float) :
  ((exists y, YageoResistor_init r p t = Ok y) <->
     (p = "0402" \/ p = "0603") /\ leb r (of_int 10000000) = true /\
     (eqb t (lit 10 1) = true \/ eqb t (lit 50 1) = true)) /\
  (YageoResistor_init r p t = Raise invalid_footprint_package <->
     p <> "0402" /\ p <> "0603") /\
  (YageoResistor_init r p t = Raise invalid_resistance <->
     (p = "0402" \/ p = "0603") /\ leb r (of_int 10000000) = false) /\
  (YageoResistor_init r p t = Raise invalid_tolerance <->
     (p = "0402" \/ p = "0603") /\ leb r (of_int 10000000) = true /\
     eqb t (lit 10 1) = false /\ eqb t (lit 50 1) = false) /\
  YageoResistor_init r p t <> Raise invalid_package.
Proof.
  destruct errors_distinct as (D1 & D2 & D3).
  destruct footprint_errors_distinct as (F1 & F2 & F3).
  assert (P4 : str_in "0402" mpn_packages = true) by reflexivity.
  assert (P6 : str_in "0603" mpn_packages = true) by reflexivity.
  assert (N46 : "0402" <> "0603") by discriminate.
  unfold YageoResistor_init, bind, resistor_footprint_str.
  destruct (String.eqb_spec p "0402") as [->|N4];
    [|destruct (String.eqb_spec p "0603") as [->|N6]].
  - rewrite mpn_cases, P4.
    destruct (leb r _); destruct (eqb t (lit 10 1));
      destruct (eqb t (lit 50 1)); cbn [orb];
      repeat split; intros; try discriminate; try congruence; eauto;
      try (intuition (try discriminate; congruence));
      try (match goal with
           | H : exists _, _ |- _ => destruct H as [? H]; discriminate H
           end).
  - rewrite mpn_cases, P6.
    destruct (leb r _); destruct (eqb t (lit 10 1));
      destruct (eqb t (lit 50 1)); cbn [orb];
      repeat split; intros; try discriminate; try congruence; eauto;
      try (intuition (try discriminate; congruence));
      try (match goal with
           | H : exists _, _ |- _ => destruct H as [? H]; discriminate H
           end).
  - repeat split; intros; try discriminate; try congruence; eauto;
      try (intuition (try discriminate; congruence));
      try (match goal with
           | H : exists _, _ |- _ => destruct H as [? H]; discriminate H
           end).
Qed.

Lemma eqb_finite_eq (t : float) (s : bool) (m : positive) (e : Z) :
  eqb t (S754_finite s m e) = true -> t = S754_finite s m e.
Proof.
  unfold eqb, SFeqb.
  destruct t as [s'|s'| |s' m' e']; simpl; try discriminate.
  - destruct s; discriminate.
  - destruct s'; discriminate.
  - destruct s', s; try discriminate;
      destruct (Z.compare_spec e' e) as [He|He|He]; try discriminate;
      change (Pos.compare_cont Eq m' m) with (m' ?= m)%positive;
      destruct (Pos.compare_spec m' m) as [Hm|Hm|Hm]; try discriminate;
      intros _; now subst.
Qed.

Lemma lit_1_0 : lit 10 1 = S754_finite false 4503599627370496 (-52).
Proof. vm_compute; reflexivity. Qed.

Lemma lit_5_0 : lit 50 1 = S754_finite false 5629499534213120 (-50).
Proof. vm_compute; reflexivity. Qed.

(** A tolerance the builders accept is the float 1.0 or the float 5.0. *)
Lemma accepted_tolerance (t : float) :
  eqb t (lit 10 1) = true \/ eqb t (lit 50 1) = true ->
  t = lit 10 1 \/ t = lit 50 1.
Proof.
  intros [H|H]; [left; rewrite lit_1_0 in *|right; rewrite lit_5_0 in *];
    now apply eqb_finite_eq.
Qed.

Lemma tolerance_str_1 : resistor_tolerance_str (lit 10 1) = "1%".
Proof. vm_compute; reflexivity. Qed.

Lemma tolerance_str_5 : resistor_tolerance_str (lit 50 1) = "5%".
Proof. vm_compute; reflexivity. Qed.

(** Suffixes of the same length can be cancelled. *)
Lemma append_suffix_inj (a b s1 s2 : string) :
  String.length s1 = String.length s2 ->
  a ++ s1 = b ++ s2 -> a = b /\ s1 = s2.
Proof.
  intros Hlen. revert b.
  induction a as [|x a IH]; intros [|y b] H; simpl in H.
  - auto.
  - exfalso. apply (f_equal String.length) in H. simpl in H.
    rewrite length_append in H. lia.
  - exfalso. apply (f_equal String.length) in H. simpl in H.
    rewrite length_append in H. lia.
  - inversion H; subst. destruct (IH b H2) as [-> ->]. auto.
Qed.

(** X4.  On the packages and tolerances the constructor accepts, the part
    identifier is unambiguous: two identifiers are equal only if the
    formatted values, the packages and the tolerances are, and then the
    descriptions are equal too.  Outside of them it is not: "R-1-0402--1%"
    is the identifier of 1 ohm, package "0402", tolerance -1.0 and of 1 ohm,
    package "0402-", tolerance 1.0. *)
Theorem identifier_unambiguous
    (r1 : float) (p1 : string) (t1 : float)
    (r2 : float) (p2 : string) (t2 : float) :
  p1 = "0402" \/ p1 = "0603" ->
  p2 = "0402" \/ p2 = "0603" ->
  eqb t1 (lit 10 1) = true \/ eqb t1 (lit 50 1) = true ->
  eqb t2 (lit 10 1) = true \/ eqb t2 (lit 50 1) = true ->
  resistor_part_id_str r1 p1 t1 = resistor_part_id_str r2 p2 t2 ->
  resistor_value_str r1 = resistor_value_str r2 /\
  p1 = p2 /\ t1 = t2 /\
  resistor_description_str r1 p1 t1 = resistor_description_str r2 p2 t2 /\
  resistor_part_id_str (of_int 1) "0402" (SFopp (lit 10 1))
    = resistor_part_id_str (of_int 1) "0402-" (lit 10 1).
Proof.
  intros Hp1 Hp2 Ht1 Ht2 Hid.
  apply accepted_tolerance in Ht1, Ht2.
  unfold resistor_part_id_str, resistor_description_str in *.
  set (v1 := resistor_value_str r1) in *.
  set (v2 := resistor_value_str r2) in *.
  assert (Hs : v1 = v2 /\
               "-" ++ p1 ++ "-" ++ resistor_tolerance_str t1
               = "-" ++ p2 ++ "-" ++ resistor_tolerance_str t2).
  { apply append_suffix_inj.
    - destruct Hp1 as [-> | ->], Hp2 as [-> | ->],
        Ht1 as [-> | ->], Ht2 as [-> | ->];
        rewrite ?tolerance_str_1, ?tolerance_str_5; reflexivity.
    - simpl in Hid. now inversion Hid. }
  destruct Hs as [Hv Hs].
  assert (Hpt : p1 = p2 /\ t1 = t2).
  { destruct Hp1 as [-> | ->], Hp2 as [-> | ->],
      Ht1 as [-> | ->], Ht2 as [-> | ->];
      rewrite ?tolerance_str_1, ?tolerance_str_5 in Hs;
      try discriminate Hs; split; reflexivity. }
  destruct Hpt as [-> ->]. rewrite Hv.
  do 4 (split; [reflexivity|]). vm_compute; reflexivity.
Qed.

Lemma identifier_unambiguous_witness :
  resistor_value_str (lit 10234 3) = resistor_value_str (lit 1023 2) /\
  "0603" = "0603" /\ lit 10 1 = lit 10 1 /\
  resistor_description_str (lit 10234 3) "0603" (lit 10 1)
    = resistor_description_str (lit 1023 2) "0603" (lit 10 1) /\
  resistor_part_id_str (of_int 1) "0402" (SFopp (lit 10 1))
    = resistor_part_id_str (of_int 1) "0402-" (lit 10 1).
Proof.
  apply (identifier_unambiguous (lit 10234 3) "0603" (lit 10 1)
           (lit 1023 2) "0603" (lit 10 1));
    first [right; reflexivity | left; vm_compute; reflexivity
          | vm_compute; reflexivity].
Defined.

(* ================================================================== *)
(** * Further properties of the generation *)
(* ================================================================== *)

Lemma map_result_raise_inv {A B : Type} (f : A -> result B) (xs : list A)
    (e : exn) :
  map_result f xs = Raise e -> exists x, In x xs /\ f x = Raise e.
Proof.
  induction xs as [|a xs IH]; simpl; [discriminate|].
  destruct (f a) as [y|e0] eqn:Ha; simpl.
  - destruct (map_result f xs) as [ys|e1]; simpl; [discriminate|].
    intros H. inversion H; subst.
    destruct (IH eq_refl) as (x & Hx & Hfx). exists x. auto.
  - intros H. inversion H; subst. exists a. auto.
Qed.

Lemma map_result_all_ok {A B : Type} (f : A -> result B) (xs : list A) :
  (forall x, In x xs -> is_ok (f x) = true) ->
  is_ok (map_result f xs) = true.
Proof.
  induction xs as [|a xs IH]; simpl; intros H; [reflexivity|].
  pose proof (H a (or_introl eq_refl)) as Ha.
  destruct (f a); [|discriminate]. simpl.
  specialize (IH (fun x Hx => H x (or_intror Hx))).
  destruct (map_result f xs); [reflexivity|discriminate].
Qed.

(** The constructor succeeds on a supported package, an accepted resistance
    and an accepted tolerance. *)
Lemma construct_succeeds (r : float) (p : string) (t : float) :
  p = "0402" \/ p = "0603" ->
  leb r (of_int 10000000) = true ->
  eqb t (lit 10 1) = true \/ eqb t (lit 50 1) = true ->
  is_ok (construct (r, p, t)) = true.
Proof.
  intros Hp Hr Ht.
  assert (Ht' : (eqb t (lit 10 1) || eqb t (lit 50 1))%bool = true)
    by (destruct Ht as [-> | ->]; [reflexivity|apply orb_true_r]).
  unfold construct, YageoResistor_init, bind.
  destruct Hp as [-> | ->].
  - change (resistor_footprint_str "0402")
      with (@Ok string "Resistor_SMD:R_0402_1005Metric").
    rewrite mpn_cases, Hr.
    change (str_in "0402" mpn_packages) with true.
    now rewrite Ht'.
  - change (resistor_footprint_str "0603")
      with (@Ok string "Resistor_SMD:R_0603_1608Metric").
    rewrite mpn_cases, Hr.
    change (str_in "0603" mpn_packages) with true.
    now rewrite Ht'.
Qed.

Lemma construct_package (s : specification) (y : YageoResistor) :
  construct s = Ok y -> package (database_row y) = snd (fst s).
Proof.
  destruct s as [[r p] t]. unfold construct, YageoResistor_init, bind.
  destruct (resistor_footprint_str p); [|discriminate].
  destruct (yageo_resistor_mpn r p t); [|discriminate].
  intros H. inversion H; subst. reflexivity.
Qed.

Lemma flat_map_empty {X Y : Type} (xs : list X) :
  flat_map (fun _ : X => @nil Y) xs = [].
Proof.
  induction xs as [|x xs IH]; simpl; [reflexivity|exact IH].
Qed.

(** X5.  For decades that convert to a float, [resistor_list] returns one
    record per decade and base value, decade by decade and, within a decade,
    in the order of the series, all of the given package and tolerance; or
    it raises the invalid-input error of a product base * decade it could
    not construct.  It returns the empty list when the series or the list
    of decades is empty, and it succeeds whenever the package is "0402" or
    "0603", the tolerance is 1.0 or 5.0 and every product is at most
    10,000,000.  For instance the bases 1.0 and 4.7 over the decades 1 and
    10 give the resistors 1, 4.7, 10 and 47 ohm, in that order. *)
Theorem resistor_list_outcome (p : string) (t : float) (series : list float)
    (decades : list Z) :
  forallb fits_float decades = true ->
  match resistor_list p t series decades with
  | Ok rs =>
      List.length rs = (List.length decades * List.length series)%nat /\
      map spec_of rs =
        flat_map (fun decade =>
                    map (fun base => (mul base (of_int decade), p, t)) series)
                 decades /\
      Forall (fun y => resistor_package y = p /\ tolerance y = t /\
                       package (database_row y) = p) rs
  | Raise e =>
      is_invalid_input e /\
      exists base decade,
        In base series /\ In decade decades /\
        YageoResistor_init (mul base (of_int decade)) p t = Raise e
  end /\
  (series = [] \/ decades = [] -> resistor_list p t series decades = Ok []) /\
  ((p = "0402" \/ p = "0603") ->
   (eqb t (lit 10 1) = true \/ eqb t (lit 50 1) = true) ->
   (forall base decade, In base series -> In decade decades ->
      leb (mul base (of_int decade)) (of_int 10000000) = true) ->
   is_ok (resistor_list p t series decades) = true) /\
  match resistor_list "0402" (lit 10 1) [lit 10 1; lit 47 1] [1; 10] with
  | Ok rs =>
      map (fun y => part_id (database_row y)) rs
        = ["R-1-0402-1%"; "R-4.7-0402-1%"; "R-10-0402-1%"; "R-47-0402-1%"]
  | Raise _ => False
  end /\
  resistor_list "0805" (lit 10 1) [lit 10 1] [1]
    = Raise (ValueError "Invalid package type") /\
  resistor_list "0402" (lit 10 1) [lit 10 1] [1; 100000000]
    = Raise (ValueError "Not a valid resistance value (1 < {} < 10,000,000)")
  /\
  resistor_list "0402" (lit 20 1) [lit 10 1] [1]
    = Raise (ValueError "Invalid tolerance, must be 1.0% or 5.0%").
Proof.
  intros _.
  rewrite resistor_list_spec.
  set (specs := flat_map (fun decade =>
                  map (fun base => (mul base (of_int decade), p, t)) series)
                  decades).
  assert (Hin : forall s, In s specs ->
            exists base decade, In base series /\ In decade decades /\
                                s = (mul base (of_int decade), p, t)).
  { intros s Hs. unfold specs in Hs. apply in_flat_map in Hs.
    destruct Hs as (d & Hd & Hs). apply in_map_iff in Hs.
    destruct Hs as (b & Hb & Hbs). exists b, d. auto. }
  split; [|split; [|split]].
  - destruct (map_result construct specs) as [rs|e] eqn:E.
    + split; [|split].
      * rewrite (map_result_length construct _ _ E). unfold specs.
        apply length_flat_map_const. intros d. apply length_map.
      * rewrite <- (map_id specs).
        apply (Forall2_map_eq (fun s y => construct s = Ok y));
          [|exact (map_result_Forall2 construct _ _ E)].
        intros s y Hs. apply (construct_ok s y Hs).
      * apply Forall_forall. intros y Hy.
        destruct (map_result_In construct _ _ y E Hy) as (s & Hs & Hc).
        destruct (Hin s Hs) as (b & d & _ & _ & ->).
        pose proof (construct_package _ y Hc) as Hpk.
        destruct (construct_ok _ y Hc) as (Hspec & _).
        unfold spec_of in Hspec. inversion Hspec; subst. auto.
    + destruct (map_result_raise_inv construct _ e E) as (s & Hs & Hc).
      split; [exact (construct_raises s e Hc)|].
      destruct (Hin s Hs) as (b & d & Hb & Hd & ->).
      exists b, d. auto.
  - intros [-> | ->]; unfold specs; simpl; [|reflexivity].
    now rewrite flat_map_empty.
  - intros Hp Ht Hle. apply map_result_all_ok. intros s Hs.
    destruct (Hin s Hs) as (b & d & Hb & Hd & ->).
    apply construct_succeeds; auto.
  - do 3 (split; [vm_compute; reflexivity|]). vm_compute; reflexivity.
Qed.

Lemma resistor_list_outcome_witness :
  forallb fits_float [1; 10] = true /\
  match resistor_list "0402" (lit 10 1) [lit 10 1; lit 47 1] [1; 10] with
  | Ok rs =>
      List.length rs = (List.length [1; 10] * List.length [lit 10 1; lit 47 1])%nat /\
      map spec_of rs =
        flat_map (fun decade =>
                    map (fun base =>
                           (mul base (of_int decade), "0402", lit 10 1))
                        [lit 10 1; lit 47 1])
                 [1; 10] /\
      Forall (fun y => resistor_package y = "0402" /\
                       tolerance y = lit 10 1 /\
                       package (database_row y) = "0402") rs
  | Raise e =>
      is_invalid_input e /\
      exists base decade,
        In base [lit 10 1; lit 47 1] /\ In decade [1; 10] /\
        YageoResistor_init (mul base (of_int decade)) "0402" (lit 10 1)
          = Raise e
  end.
Proof.
  assert (H : forallb fits_float [1; 10] = true) by (vm_compute; reflexivity).
  split; [exact H|].
  exact (proj1 (resistor_list_outcome "0402" (lit 10 1)
                  [lit 10 1; lit 47 1] [1; 10] H)).
Defined.

(** X6.  When the tables yield no resistor at all, a run of the
    generator's body (the file operations succeeding) opens the output file
    and closes it again without a single write, so that the file is left
    empty, and raises an [IndexError]: there is no first record to take the
    header from.  (The tables yield no resistor when no product
    base * decade is formed and no boundary resistor is given, so no decade
    is converted to a float in such a run.) *)
Theorem empty_tables_leave_empty_file (pk : list string)
    (st : list (list float * float)) (de : list Z) (bd : list specification)
    (w : world) :
  generation_order pk st de bd = [] ->
  records_of pk st de bd = Ok [] /\
  gen_resistor_csv_from pk st de bd w =
    (Raise (IndexError "list index out of range"),
     (w ++ [Open "yageo_resistors.csv"; Close "yageo_resistors.csv"])%list) /\
  gen_resistor_csv_from [] [] [] [] [] =
    (Raise (IndexError "list index out of range"),
     [Open "yageo_resistors.csv"; Close "yageo_resistors.csv"]) /\
  gen_resistor_csv_from ["0402"; "0603"] [([], lit 10 1)] [1; 10] [] [] =
    (Raise (IndexError "list index out of range"),
     [Open "yageo_resistors.csv"; Close "yageo_resistors.csv"]) /\
  gen_resistor_csv_from ["0402"] [([lit 10 1], lit 10 1)] [] [] [] =
    (Raise (IndexError "list index out of range"),
     [Open "yageo_resistors.csv"; Close "yageo_resistors.csv"]).
Proof.
  intros H.
  split; [rewrite records_of_eq, H; reflexivity|].
  split; [|do 2 (split; [vm_compute; reflexivity|]); vm_compute; reflexivity].
  rewrite gen_resistor_csv_from_run, records_of_eq, H. reflexivity.
Qed.

Lemma empty_tables_leave_empty_file_witness :
  generation_order ["0402"; "0603"] [([], lit 10 1); ([], lit 50 1)]
                   [1; 10; 100] [] = [] /\
  gen_resistor_csv_from ["0402"; "0603"] [([], lit 10 1); ([], lit 50 1)]
                        [1; 10; 100] []
                        [Open "other.csv"; Close "other.csv"] =
    (Raise (IndexError "list index out of range"),
     [Open "other.csv"; Close "other.csv";
      Open "yageo_resistors.csv"; Close "yageo_resistors.csv"]).
Proof.
  split; [reflexivity|].
  apply (empty_tables_leave_empty_file
           ["0402"; "0603"] [([], lit 10 1); ([], lit 50 1)] [1; 10; 100] []
           [Open "other.csv"; Close "other.csv"]).
  reflexivity.
Defined.

(** X7.  In the generated catalogue no manufacturer part number occurs
    twice and no description occurs twice: a record of the catalogue is
    determined by its part number, and by its description. *)
Theorem catalogue_part_numbers_unique :
  records_of packages series_tolerances decades boundary = Ok catalogue /\
  NoDup (map (fun y => manufacturer_part_number (database_row y)) catalogue) /\
  NoDup (map (fun y => component (database_row y)) catalogue) /\
  (forall y1 y2, In y1 catalogue -> In y2 catalogue ->
     manufacturer_part_number (database_row y1)
       = manufacturer_part_number (database_row y2) -> y1 = y2) /\
  (forall y1 y2, In y1 catalogue -> In y2 catalogue ->
     component (database_row y1) = component (database_row y2) -> y1 = y2).
Proof.
  assert (H1 : NoDup (map (fun y => manufacturer_part_number (database_row y))
                          catalogue))
    by (apply distinct_NoDup; vm_compute; reflexivity).
  assert (H2 : NoDup (map (fun y => component (database_row y)) catalogue))
    by (apply distinct_NoDup; vm_compute; reflexivity).
  split; [exact records_of_run|].
  split; [exact H1|]. split; [exact H2|].
  split; apply NoDup_map_injective; assumption.
Qed.

Lemma prints_exactly_spec (decimals : nat) (decade digits : Z) :
  prints_exactly decimals decade digits = true ->
  resistor_value_str (mul (lit digits decimals) (of_int decade))
    = resistor_value_str (lit (digits * decade) decimals) /\
  forall p t,
    yageo_resistor_mpn (mul (lit digits decimals) (of_int decade)) p t
    = yageo_resistor_mpn (lit (digits * decade) decimals) p t.
Proof.
  unfold prints_exactly. intros H.
  apply andb_true_iff in H as [H H4]. apply andb_true_iff in H as [H H3].
  apply andb_true_iff in H as [H1 H2].
  apply String.eqb_eq in H1. apply String.eqb_eq in H2.
  split; [exact H1|].
  intros p t. now rewrite !mpn_cases, H3, H4, H2.
Qed.

(** X8.  Binary rounding never shows in the catalogue: for every entry of
    E24 and E48 and every decade, the product base * decade, computed in
    binary64, prints as the exact decimal product does, in the value string
    and in the part number; so 1.15 * 100, which is not 115 in binary64,
    prints as "115". *)
Theorem catalogue_values_print_exactly :
  E24 = map (fun digits => lit digits 1) E24_digits /\
  E48 = map (fun digits => lit digits 2) E48_digits /\
  Forall (fun decade =>
    Forall (fun digits =>
      resistor_value_str (mul (lit digits 1) (of_int decade))
        = resistor_value_str (lit (digits * decade) 1) /\
      forall p t,
        yageo_resistor_mpn (mul (lit digits 1) (of_int decade)) p t
        = yageo_resistor_mpn (lit (digits * decade) 1) p t)
      E24_digits /\
    Forall (fun digits =>
      resistor_value_str (mul (lit digits 2) (of_int decade))
        = resistor_value_str (lit (digits * decade) 2) /\
      forall p t,
        yageo_resistor_mpn (mul (lit digits 2) (of_int decade)) p t
        = yageo_resistor_mpn (lit (digits * decade) 2) p t)
      E48_digits) decades /\
  mul (lit 115 2) (of_int 100) <> lit 11500 2 /\
  lit 11500 2 = of_int 115 /\
  resistor_value_str (mul (lit 115 2) (of_int 100)) = "115".
Proof.
  split; [reflexivity|]. split; [reflexivity|].
  split; [|split; [|split; vm_compute; reflexivity]].
  - assert (H : forallb (fun decade =>
                  forallb (prints_exactly 1 decade) E24_digits
                  && forallb (prints_exactly 2 decade) E48_digits) decades
                = true) by (vm_compute; reflexivity).
    apply forallb_Forall in H. revert H. apply Forall_impl.
    intros decade H. apply andb_true_iff in H as [H1 H2].
    split; [apply forallb_Forall in H1; revert H1
           |apply forallb_Forall in H2; revert H2];
      apply Forall_impl; intros digits; apply prints_exactly_spec.
  - intros H. vm_compute in H. discriminate H.
Qed.

(** A float between two positive floats of the same exponent has that
    exponent, and its mantissa lies between theirs. *)
Lemma between_same_exponent (x : float) (m1 m2 : positive) (e : Z) :
  leb (S754_finite false m1 e) x = true ->
  ltb x (S754_finite false m2 e) = true ->
  exists m, x = S754_finite false m e /\ Z.pos m1 <= Z.pos m < Z.pos m2.
Proof.
  unfold leb, ltb, SFleb, SFltb.
  destruct x as [s|s| |s m ex]; simpl; try discriminate.
  - destruct s; intros H1 H2; first [discriminate H1|discriminate H2].
  - destruct s; [intros H1; discriminate H1|].
    change (Pos.compare_cont Eq m1 m) with (m1 ?= m)%positive.
    change (Pos.compare_cont Eq m m2) with (m ?= m2)%positive.
    destruct (Z.compare_spec e ex) as [He|He|He];
      destruct (Z.compare_spec ex e) as [He'|He'|He'];
      try discriminate; try lia.
    subst ex.
    destruct (Pos.compare_spec m1 m) as [H1|H1|H1]; try discriminate;
      destruct (Pos.compare_spec m m2) as [H2|H2|H2]; try discriminate;
      intros _ _; exists m; (split; [reflexivity|lia]).
Qed.

Lemma lit_999_995 :
  lit 999995 3 = S754_finite false 8796049041742889 (-43).
Proof. vm_compute; reflexivity. Qed.

(** From 999.995 up to 1000, the hundredths round to 100000. *)
Lemma scaled_carry (m : positive) :
  8796049041742889 <= Z.pos m < 8796093022208000 ->
  scaled 2 m (-43) = 100000.
Proof.
  intros Hm. unfold scaled, round_half_even.
  change (10 ^ Z.of_nat 2) with 100.
  change (2 ^ Z.pos 43) with 8796093022208.
  assert (Hnz : 8796093022208 <> 0) by discriminate.
  assert (Hpos : 0 < 8796093022208) by reflexivity.
  pose proof (Z.div_mod (Z.pos m * 100) 8796093022208 Hnz) as Hdm.
  pose proof (Z.mod_pos_bound (Z.pos m * 100) 8796093022208 Hpos) as Hr.
  assert (Hq1 : Z.pos m * 100 / 8796093022208 < 100000)
    by (apply Z.div_lt_upper_bound; [exact Hpos|lia]).
  assert (Hq2 : 99999 <= Z.pos m * 100 / 8796093022208)
    by (apply Z.div_le_lower_bound; [exact Hpos|lia]).
  set (q := Z.pos m * 100 / 8796093022208) in *.
  set (r := (Z.pos m * 100) mod 8796093022208) in *.
  assert (Hq : q = 99999) by lia.
  rewrite Hq in *.
  assert (Hr2 : 8796093022208 < 2 * r) by lia.
  destruct (Z.compare_spec (2 * r) 8796093022208) as [H|H|H].
  - exfalso. lia.
  - exfalso. lia.
  - reflexivity.
Qed.

(** X9.  The magnitude is chosen before the rounding: every resistance from
    999.995 up to, but not including, 1000 ohm is formatted without suffix
    as "1000", not as "1k", and its part number carries "1000R". *)
Theorem value_rounding_carry (x : float) (p : string) (t : float) :
  leb (lit 999995 3) x = true ->
  ltb x (of_int 1000) = true ->
  str_in p mpn_packages = true ->
  eqb t (lit 10 1) = true \/ eqb t (lit 50 1) = true ->
  format_f 2 x = "1000.00" /\
  resistor_value_str x = "1000" /\
  yageo_resistor_mpn x p t
    = Ok ("RC" ++ p ++ tolerance_code t ++ "R" ++ "-" ++ "07"
               ++ "1000R" ++ "L") /\
  resistor_value_str (of_int 1000) = "1k".
Proof.
  intros Hlo Hhi Hp Ht.
  assert (Hfmt : format_f 2 x = "1000.00").
  { pose proof Hlo as Hlo'. pose proof Hhi as Hhi'.
    rewrite lit_999_995 in Hlo'. rewrite of_int_1000 in Hhi'.
    destruct (between_same_exponent x _ _ _ Hlo' Hhi') as (m & -> & Hm).
    unfold format_f. rewrite (scaled_carry m Hm).
    vm_compute; reflexivity. }
  assert (Hnan : is_nan x = false).
  { destruct x; try reflexivity. discriminate Hhi. }
  split; [exact Hfmt|]. split; [|split; [|vm_compute; reflexivity]].
  - rewrite (value_str_scaled x Hnan).
    unfold scaled_value, value_suffix.
    assert (N3 : is_nan (of_int 1000) = false) by (now rewrite of_int_1000).
    assert (N6 : is_nan (of_int 1000000) = false)
      by (now rewrite of_int_1000000).
    assert (L6 : ltb x (of_int 1000000) = true).
    { rewrite of_int_1000 in Hhi. rewrite of_int_1000000.
      revert Hhi. apply ltb_ltb_finite. lia. }
    rewrite (geb_negb_ltb x _ Hnan N3), (geb_negb_ltb x _ Hnan N6).
    rewrite Hhi, L6, Hfmt. vm_compute; reflexivity.
  - rewrite mpn_cases, (ltb_1000_leb x Hhi), Hp.
    replace (eqb t (lit 10 1) || eqb t (lit 50 1))%bool with true
      by (destruct Ht as [-> | ->]; [reflexivity|now rewrite orb_true_r]).
    unfold scaled_mantissa, magnitude_letter, scaled_value.
    rewrite Hhi, Hfmt. reflexivity.
Qed.

Lemma value_rounding_carry_witness :
  format_f 2 (lit 9999951 4) = "1000.00" /\
  resistor_value_str (lit 9999951 4) = "1000" /\
  yageo_resistor_mpn (lit 9999951 4) "0603" (lit 50 1)
    = Ok ("RC" ++ "0603" ++ tolerance_code (lit 50 1) ++ "R" ++ "-" ++ "07"
               ++ "1000R" ++ "L") /\
  resistor_value_str (of_int 1000) = "1k".
Proof.
  apply (value_rounding_carry (lit 9999951 4) "0603" (lit 50 1));
    first [right; vm_compute; reflexivity | vm_compute; reflexivity].
Defined.

(** At most a positive bound is strictly below any positive bound of larger
    exponent. *)
Lemma leb_ltb_finite (r : float) (m m' : positive) (e e' : Z) :
  e < e' ->
  leb r (S754_finite false m e) = true ->
  ltb r (S754_finite false m' e') = true.
Proof.
  intros He.
  unfold ltb, leb, SFltb, SFleb.
  destruct r as [s|s| |s mr er]; simpl; try discriminate; try reflexivity.
  - destruct s; [reflexivity|discriminate].
  - destruct s; [reflexivity|].
    destruct (Z.compare_spec er e); destruct (Z.compare_spec er e');
      try reflexivity; try discriminate; lia.
Qed.

Lemma of_int_1 : of_int 1 = S754_finite false 4503599627370496 (-52).
Proof. vm_compute; reflexivity. Qed.

(** X10.  The part-number builder has no lower bound, although its error
    message reads "(1 < {} < 10,000,000)": every finite resistance of at
    most 1 ohm, zero and the negative numbers included, is accepted and
    encoded with the letter "R" between its integer digits and what is left
    of its two fraction digits, behind its sign: 0.5 gives "0R5", zero "0R",
    -5 "-5R".  Minus infinity is accepted as well; its mantissa is "-inf",
    with no letter at all. *)
Theorem mpn_has_no_lower_bound (r : float) (p : string) (t : float) :
  is_finite r = true ->
  leb r (of_int 1) = true ->
  str_in p mpn_packages = true ->
  eqb t (lit 10 1) = true \/ eqb t (lit 50 1) = true ->
  (exists ip fp,
     format_f 2 r = sign_str (sign_of r) ++ ip ++ String "." fp /\
     digits_only ip = true /\ (1 <= String.length ip)%nat /\
     digits_only fp = true /\ String.length fp = 2%nat /\
     yageo_resistor_mpn r p t
       = Ok ("RC" ++ p ++ tolerance_code t ++ "R" ++ "-" ++ "07"
                  ++ (sign_str (sign_of r) ++ ip
                        ++ String "R" (rstrip "0" fp)) ++ "L")) /\
  yageo_resistor_mpn (lit 5 1) "0603" (lit 10 1) = Ok "RC0603FR-070R5L" /\
  yageo_resistor_mpn (of_int 0) "0603" (lit 10 1) = Ok "RC0603FR-070RL" /\
  yageo_resistor_mpn (SFopp (of_int 5)) "0603" (lit 10 1)
    = Ok "RC0603FR-07-5RL" /\
  yageo_resistor_mpn (SFopp (lit 125 2)) "0402" (lit 50 1)
    = Ok "RC0402JR-07-1R25L" /\
  is_finite (S754_infinity true) = false /\
  yageo_resistor_mpn (S754_infinity true) "0603" (lit 10 1)
    = Ok "RC0603FR-07-infL" /\
  invalid_resistance
    = ValueError "Not a valid resistance value (1 < {} < 10,000,000)".
Proof.
  intros Hfin Hr Hp Ht.
  assert (L3 : ltb r (of_int 1000) = true).
  { rewrite of_int_1 in Hr. rewrite of_int_1000.
    revert Hr. apply leb_ltb_finite. lia. }
  split; [|do 4 (split; [vm_compute; reflexivity|]);
           split; [reflexivity|];
           split; [vm_compute; reflexivity|reflexivity]].
  destruct (format_f_shape 2 r Hfin) as (ip & fp & Hfmt & Hip & Hlen & Hfp & Hl2).
  exists ip, fp. do 5 (split; [assumption|]).
  rewrite mpn_cases, (ltb_1000_leb r L3), Hp.
  replace (eqb t (lit 10 1) || eqb t (lit 50 1))%bool with true
    by (destruct Ht as [-> | ->]; [reflexivity|now rewrite orb_true_r]).
  unfold scaled_mantissa, magnitude_letter, scaled_value.
  rewrite L3, Hfmt. now rewrite strip_and_replace.
Qed.

Lemma mpn_has_no_lower_bound_witness :
  is_finite (SFopp (of_int 5)) = true /\
  leb (SFopp (of_int 5)) (of_int 1) = true /\
  exists ip fp,
    format_f 2 (SFopp (of_int 5))
      = sign_str (sign_of (SFopp (of_int 5))) ++ ip ++ String "." fp /\
    digits_only ip = true /\ (1 <= String.length ip)%nat /\
    digits_only fp = true /\ String.length fp = 2%nat /\
    yageo_resistor_mpn (SFopp (of_int 5)) "0402" (lit 50 1)
      = Ok ("RC" ++ "0402" ++ tolerance_code (lit 50 1) ++ "R" ++ "-" ++ "07"
                 ++ (sign_str (sign_of (SFopp (of_int 5))) ++ ip
                       ++ String "R" (rstrip "0" fp)) ++ "L").
Proof.
  split; [vm_compute; reflexivity|].
  split; [vm_compute; reflexivity|].
  apply (mpn_has_no_lower_bound (SFopp (of_int 5)) "0402" (lit 50 1));
    first [right; vm_compute; reflexivity | vm_compute; reflexivity].
Defined.

(** The columns of a record, as the constructor computes them. *)
Lemma constructed_row (r : float) (p : string) (t : float)
    (y : YageoResistor) :
  YageoResistor_init r p t = Ok y ->
  exists fp mpn,
    resistor_footprint_str p = Ok fp /\
    yageo_resistor_mpn r p t = Ok mpn /\
    part_id (database_row y) = resistor_part_id_str r p t /\
    value (database_row y) = resistor_value_str r /\
    component (database_row y) = resistor_description_str r p t /\
    rating (database_row y) = resistor_tolerance_str t ++ ", 0.1W" /\
    package (database_row y) = p /\
    footprint (database_row y) = fp /\
    manufacturer_part_number (database_row y) = mpn.
Proof.
  unfold YageoResistor_init, bind.
  destruct (resistor_footprint_str p) as [fp|]; [|discriminate].
  destruct (yageo_resistor_mpn r p t) as [mpn|]; [|discriminate].
  intros H. inversion H; subst; clear H.
  exists fp, mpn. simpl. repeat split; reflexivity.
Qed.

Lemma tolerance_code_1 : tolerance_code (lit 10 1) = "F".
Proof. vm_compute; reflexivity. Qed.

Lemma tolerance_code_5 : tolerance_code (lit 50 1) = "J".
Proof. vm_compute; reflexivity. Qed.

(** X11.  The columns of every record the constructor builds agree with
    each other: the tolerance text is "1%" with code "F" in the part number,
    or "5%" with code "J"; the footprint is the one of the package column;
    the identifier and the description are built from the value column, the
    package column and the tolerance text, the rating from the tolerance
    text; the part number starts with "RC" and the package column. *)
Theorem record_columns_consistent (r : float) (p : string) (t : float)
    (y : YageoResistor) :
  YageoResistor_init r p t = Ok y ->
  exists tol code mantissa : string,
    (tol = "1%" /\ code = "F" \/ tol = "5%" /\ code = "J") /\
    (package (database_row y) = "0402" /\
       footprint (database_row y) = "Resistor_SMD:R_0402_1005Metric" \/
     package (database_row y) = "0603" /\
       footprint (database_row y) = "Resistor_SMD:R_0603_1608Metric") /\
    part_id (database_row y)
      = "R-" ++ value (database_row y) ++ "-" ++ package (database_row y)
             ++ "-" ++ tol /\
    component (database_row y)
      = "Resistor " ++ value (database_row y) ++ " "
                    ++ package (database_row y) ++ " " ++ tol ++ " 0.1W" /\
    rating (database_row y) = tol ++ ", 0.1W" /\
    manufacturer_part_number (database_row y)
      = "RC" ++ package (database_row y) ++ code ++ "R-07" ++ mantissa ++ "L".
Proof.
  intros H.
  destruct (constructed_row r p t y H)
    as (fp & mpn & Hf & Hm & -> & -> & -> & -> & -> & -> & ->).
  assert (Hp : p = "0402" /\ fp = "Resistor_SMD:R_0402_1005Metric" \/
               p = "0603" /\ fp = "Resistor_SMD:R_0603_1608Metric").
  { unfold resistor_footprint_str in Hf.
    destruct (String.eqb_spec p "0402");
      [left; split; [assumption|congruence]|].
    destruct (String.eqb_spec p "0603");
      [right; split; [assumption|congruence]|discriminate Hf]. }
  rewrite mpn_cases in Hm.
  destruct (leb r (of_int 10000000)); [|discriminate Hm].
  destruct (str_in p mpn_packages); [|discriminate Hm].
  destruct (eqb t (lit 10 1) || eqb t (lit 50 1))%bool eqn:Ht;
    [|discriminate Hm].
  apply orb_true_iff in Ht. apply accepted_tolerance in Ht.
  assert (Hmpn : mpn = "RC" ++ p ++ tolerance_code t ++ "R-07"
                            ++ scaled_mantissa r ++ "L")
    by (inversion Hm; reflexivity).
  clear Hm Hf. subst mpn.
  unfold resistor_part_id_str, resistor_description_str.
  destruct Ht as [-> | ->].
  - exists "1%", "F", (scaled_mantissa r).
    rewrite tolerance_str_1, tolerance_code_1.
    split; [left; auto|]. split; [exact Hp|].
    repeat split; reflexivity.
  - exists "5%", "J", (scaled_mantissa r).
    rewrite tolerance_str_5, tolerance_code_5.
    split; [right; auto|]. split; [exact Hp|].
    repeat split; reflexivity.
Qed.

Lemma record_columns_consistent_witness :
  exists y,
    YageoResistor_init (of_int 10000) "0603" (lit 10 1) = Ok y /\
    exists tol code mantissa : string,
      (tol = "1%" /\ code = "F" \/ tol = "5%" /\ code = "J") /\
      (package (database_row y) = "0402" /\
         footprint (database_row y) = "Resistor_SMD:R_0402_1005Metric" \/
       package (database_row y) = "0603" /\
         footprint (database_row y) = "Resistor_SMD:R_0603_1608Metric") /\
      part_id (database_row y)
        = "R-" ++ value (database_row y) ++ "-" ++ package (database_row y)
               ++ "-" ++ tol /\
      component (database_row y)
        = "Resistor " ++ value (database_row y) ++ " "
                      ++ package (database_row y) ++ " " ++ tol ++ " 0.1W" /\
      rating (database_row y) = tol ++ ", 0.1W" /\
      manufacturer_part_number (database_row y)
        = "RC" ++ package (database_row y) ++ code ++ "R-07" ++ mantissa
               ++ "L".
Proof.
  eexists. split.
  - vm_compute. reflexivity.
  - apply (record_columns_consistent (of_int 10000) "0603" (lit 10 1)).
    vm_compute. reflexivity.
Defined.
